(** * Redirect-page generation: a shallow embedding of [redirects.py]

    The script reads a mapping of short names to destination URLs; for each
    pair it fetches the destination, scrapes its Open Graph [meta] tags and
    writes a static HTML page that redirects to the destination and repeats
    the scraped tags.

    Python strings are [string]; a Python [dict] whose iteration order is
    observable (the scraped tags) is an association list kept in insertion
    order; the attribute dictionary of an HTML tag, which is only ever looked
    up by key, is a [gmap string string]; the network, the file system and
    standard output are threaded through an explicit world. *)

From Stdlib Require Import Ascii String List Bool Arith Lia.
From stdpp Require Import base option gmap strings.

Import ListNotations.
Local Open Scope string_scope.
Local Open Scope list_scope.

(** ** Python string primitives *)

Module PyStr.

(** [s.startswith(p)] *)
Fixpoint startswith (s p : string) {struct p} : bool :=
  match p, s with
  | EmptyString, _ => true
  | String a p', String b s' => Ascii.eqb a b && startswith s' p'
  | String _ _, EmptyString => false
  end.

(** [s.endswith(p)]: the last [len(p)] characters of [s] are [p]. *)
Definition endswith (s p : string) : bool :=
  (String.length p <=? String.length s)%nat
  && String.eqb (substring (String.length s - String.length p) (String.length p) s) p.

(** [c in s] for a single character [c]. *)
Fixpoint has_char (c : ascii) (s : string) : bool :=
  match s with
  | EmptyString => false
  | String a s' => Ascii.eqb a c || has_char c s'
  end.

(** [needle in s] *)
Fixpoint contains (s needle : string) : bool :=
  startswith s needle
  || match s with
     | EmptyString => false
     | String _ s' => contains s' needle
     end.

(** Number of positions of [s] at which [needle] starts.  For a needle that
    cannot overlap itself this is [s.count(needle)]. *)
Fixpoint occurrences (needle s : string) : nat :=
  match s with
  | EmptyString => 0
  | String _ s' => (if startswith s needle then 1 else 0) + occurrences needle s'
  end.

(** [s[len(p):]] when [s] starts with [p]. *)
Fixpoint strip_prefix (p s : string) : option string :=
  match p, s with
  | EmptyString, _ => Some s
  | String a p', String b s' => if Ascii.eqb a b then strip_prefix p' s' else None
  | String _ _, EmptyString => None
  end.

(** Truth value of a string: [bool(s)]. *)
Definition nonempty (s : string) : bool :=
  match s with EmptyString => false | String _ _ => true end.

End PyStr.

(** ** Ordered dictionaries

    [dict] keeps its items in insertion order; assigning to a key that is
    already present replaces the value and leaves the position unchanged. *)

Module PyDict.

Definition dict : Type := list (string * string).

Definition empty : dict := [].

(** [d[k] = v] *)
Fixpoint set (k v : string) (d : dict) : dict :=
  match d with
  | [] => [(k, v)]
  | (k', v') :: d' =>
      if String.eqb k' k then (k', v) :: d' else (k', v') :: set k v d'
  end.

(** [d.get(k)] *)
Fixpoint get (k : string) (d : dict) : option string :=
  match d with
  | [] => None
  | (k', v') :: d' => if String.eqb k' k then Some v' else get k d'
  end.

(** [d.items()] *)
Definition items (d : dict) : list (string * string) := d.

(** Number of entries stored under [k]. *)
Definition entries (k : string) (d : dict) : nat :=
  List.length (List.filter (fun kv => String.eqb (fst kv) k) d).

End PyDict.

(** ** The redirect page generator ([generate_redirect_html]) *)

Definition LF : string := String (ascii_of_nat 10) EmptyString.
Definition DQ : string := String (ascii_of_nat 34) EmptyString.

(** The first f-string: everything up to and including the refresh line. *)
Definition html_head (url : string) : string :=
  "<!DOCTYPE html>" +:+ LF +:+
  "<html lang=" +:+ DQ +:+ "en" +:+ DQ +:+ ">" +:+ LF +:+
  "<head>" +:+ LF +:+
  "    <meta charset=" +:+ DQ +:+ "UTF-8" +:+ DQ +:+ ">" +:+ LF +:+
  "    <title>Redirecting...</title>" +:+ LF +:+
  "    <meta http-equiv=" +:+ DQ +:+ "refresh" +:+ DQ +:+
  " content=" +:+ DQ +:+ "0; url=" +:+ url +:+ DQ +:+ ">" +:+ LF.

(** The f-string appended once per item of [og_tags]. *)
Definition og_line (prop content : string) : string :=
  "    <meta property=" +:+ DQ +:+ prop +:+ DQ +:+
  " content=" +:+ DQ +:+ content +:+ DQ +:+ ">" +:+ LF.

(** The last f-string: end of the head, and the body. *)
Definition html_tail (url : string) : string :=
  "</head>" +:+ LF +:+
  "<body><p>Redirecting to <a href=" +:+ DQ +:+ url +:+ DQ +:+ ">" +:+ url +:+
  "</a>.</p></body>" +:+ LF +:+
  "</html>" +:+ LF.

(** [html] is a local accumulator: each [html += ...] appends on the right. *)
Definition generate_redirect_html (url : string) (og_tags : PyDict.dict) : string :=
  let html := html_head url in
  let html :=
    fold_left (fun html '(prop, content) => html +:+ og_line prop content)
              (PyDict.items og_tags) html in
  let html := html +:+ html_tail url in
  html.

(** ** Parsed HTML documents

    What the HTML parsing layer hands to the script: a tree of tags and text
    nodes.  A tag carries its attribute dictionary; [find_all] walks the
    descendants of the root in document order. *)

Module Bs4.

Inductive PageElement : Type :=
| NavigableString (text : string)
| Tag (name : string) (attrs : gmap string string) (contents : list PageElement).

(** [element.descendants]: pre-order, the element itself excluded. *)
Fixpoint descendants (e : PageElement) : list PageElement :=
  match e with
  | NavigableString _ => []
  | Tag _ _ contents =>
      (fix walk (l : list PageElement) : list PageElement :=
         match l with
         | [] => []
         | c :: l' => c :: descendants c ++ walk l'
         end) contents
  end.

(** [tag.get(key)]: [None] when the attribute is absent. *)
Definition get (e : PageElement) (key : string) : option string :=
  match e with
  | NavigableString _ => None
  | Tag _ attrs _ => attrs !! key
  end.

Definition has_name (e : PageElement) (n : string) : bool :=
  match e with
  | NavigableString _ => false
  | Tag name _ _ => String.eqb name n
  end.

(** [bs.find_all(name, **{attr: pred})]: the tags called [name] whose value
    for [attr] ([None] when absent) satisfies [pred]. *)
Definition find_all (name attr : string) (pred : option string -> bool)
    (bs : PageElement) : list PageElement :=
  List.filter (fun e => has_name e name && pred (get e attr)) (descendants bs).

End Bs4.

(** ** The metadata extractor ([parse_opengraph_meta]) *)

(** [lambda p: p and p.startswith('og:')] *)
Definition og_property (p : option string) : bool :=
  match p with
  | None => false
  | Some s => PyStr.nonempty s && PyStr.startswith s "og:"
  end.

(** The loop body: [if property_name and content: og_meta[property_name] = content]. *)
Definition record_tag (og_meta : PyDict.dict) (tag : Bs4.PageElement) : PyDict.dict :=
  let property_name := Bs4.get tag "property" in
  let content := Bs4.get tag "content" in
  match property_name, content with
  | Some p, Some c =>
      if PyStr.nonempty p && PyStr.nonempty c then PyDict.set p c og_meta else og_meta
  | _, _ => og_meta
  end.

Definition parse_opengraph_meta (bs : Bs4.PageElement) : PyDict.dict :=
  let og_meta := PyDict.empty in
  fold_left record_tag (Bs4.find_all "meta" "property" og_property bs) og_meta.

(** ** Output naming *)

(** [os.path.join(a, b)] on POSIX. *)
Definition join (a b : string) : string :=
  if PyStr.startswith b "/" then b
  else if negb (PyStr.nonempty a) || PyStr.endswith a "/" then a +:+ b
  else a +:+ "/" +:+ b.

(** [name = src; if not src.endswith('.html'): name += '.html'] *)
Definition output_name (src : string) : string :=
  let name := src in
  if negb (PyStr.endswith src ".html") then name +:+ ".html" else name.

Definition output_path (out_dir src : string) : string :=
  join out_dir (output_name src).

(** ** The world the script runs in *)

Record Response : Type := mkResponse { status_code : nat; text : string }.

Inductive exn : Type :=
| RuntimeError (msg : string)
| OSError (msg : string)
| YAMLError (msg : string)
| Exception (cls msg : string).

(** What a call of [requests.get] does: it returns a response, raises a
    [RequestException] (whose text is [msg]), or raises something else. *)
Inductive get_result : Type :=
| Got (res : Response)
| RequestException (msg : string)
| OtherException (e : exn).

Inductive outcome (A : Type) : Type :=
| Returned (a : A)
| Raised (e : exn).
Arguments Returned {A} a.
Arguments Raised {A} e.

Record World (Net FS : Type) : Type := mkWorld {
  net : Net;
  fs : FS;
  stdout : list string
}.
Arguments mkWorld {Net FS} _ _ _.
Arguments net {Net FS} _.
Arguments fs {Net FS} _.
Arguments stdout {Net FS} _.

(** Computations that read and change the world and may raise. *)
Definition M (W A : Type) : Type := W -> outcome A * W.

Definition ret {W A} (a : A) : M W A := fun w => (Returned a, w).

Definition raise {W A} (e : exn) : M W A := fun w => (Raised e, w).

Definition bind {W A B} (m : M W A) (k : A -> M W B) : M W B :=
  fun w =>
    match m w with
    | (Returned a, w') => k a w'
    | (Raised e, w') => (Raised e, w')
    end.

Declare Scope py_scope.
Delimit Scope py_scope with py.
Notation "x <- m ;; k" := (bind m (fun x => k))
  (at level 100, m at next level, right associativity) : py_scope.
Notation "m ;;; k" := (bind m (fun _ => k))
  (at level 100, right associativity) : py_scope.

(** [try: m finally: cleanup], as a [with] block leaves its context: the
    cleanup runs however [m] ends, and an error of the cleanup replaces the
    outcome of [m]. *)
Definition finally {W A} (m : M W A) (cleanup : M W unit) : M W A :=
  fun w =>
    match m w with
    | (r, w') =>
        match cleanup w' with
        | (Returned _, w'') => (r, w'')
        | (Raised e, w'') => (Raised e, w'')
        end
    end.

(** [for x in l: body(x)] *)
Fixpoint for_each {W A} (l : list A) (body : A -> M W unit) : M W unit :=
  match l with
  | [] => ret tt
  | x :: l' => bind (body x) (fun _ => for_each l' body)
  end.

(** [for x in l: acc = body(acc, x)], for a loop that updates one local
    variable. *)
Fixpoint for_fold {W A B} (l : list A) (body : B -> A -> M W B) (acc : B) : M W B :=
  match l with
  | [] => ret acc
  | x :: l' => bind (body acc x) (for_fold l' body)
  end.

(** [generate_redirect_html] as the procedure it is in the script, statement
    by statement, in a world it could read or change: three assignments to
    the local [html], one of them in a loop, and the [return]. *)
Definition generate_redirect_html_proc {W} (url : string) (og_tags : PyDict.dict)
    : M W string :=
  (html <- ret (html_head url) ;;
   html <- for_fold (PyDict.items og_tags)
             (fun html '(prop, content) => ret (html +:+ og_line prop content))
             html ;;
   html <- ret (html +:+ html_tail url) ;;
   ret html)%py.

(** ** The fetch-and-write loop ([redirects]) *)

Definition REDIRECTS_YML_PATH : string := "redirects.yml".
Definition DEFAULT_OUT_DIR : string := "out".

Section Redirects.

(** The collaborators the script calls but does not define. *)
Context {Net FS : Type}.
(** [requests.get] *)
Variable requests_get : Net -> string -> get_result * Net.
(** [BeautifulSoup(text, features="html.parser")] *)
Variable html_parser : string -> Bs4.PageElement.
(** [yaml.safe_load] of the opened file: the items of the mapping in order,
    for a mapping from strings to strings. *)
Variable load_yaml : FS -> string -> exn + list (string * string).
(** [makedirs(path, exist_ok=True)] *)
Variable makedirs : FS -> string -> option exn * FS.
(** [open(path, 'w')] *)
Variable open_file : FS -> string -> option exn * FS.
(** [f.write(content)] on the file opened at [path] *)
Variable write_file : FS -> string -> string -> option exn * FS.
(** [f.close()], which flushes what was written *)
Variable close_file : FS -> string -> option exn * FS.

Local Open Scope py_scope.

Abbreviation W := (World Net FS).

(** [try: res = requests.get(dst)] with its [except RequestException]
    clause; any other exception passes through. *)
Definition fetch (dst : string) : M W Response :=
  fun w =>
    match requests_get (net w) dst with
    | (Got res, n) => (Returned res, mkWorld n (fs w) (stdout w))
    | (RequestException e, n) =>
        (Raised (RuntimeError ("Error fetching " +:+ dst +:+ ": " +:+ e)),
         mkWorld n (fs w) (stdout w))
    | (OtherException e, n) => (Raised e, mkWorld n (fs w) (stdout w))
    end.

Definition fs_op (op : FS -> option exn * FS) : M W unit :=
  fun w =>
    match op (fs w) with
    | (None, f) => (Returned tt, mkWorld (net w) f (stdout w))
    | (Some e, f) => (Raised e, mkWorld (net w) f (stdout w))
    end.

(** [err = partial(print, file=stdout)] *)
Definition err (line : string) : M W unit :=
  fun w => (Returned tt, mkWorld (net w) (fs w) (stdout w ++ [line])).

(** [with open(path, 'w') as f: body]: the file is closed when the block is
    left, normally or by an error. *)
Definition with_open (path : string) (body : M W unit) : M W unit :=
  fs_op (fun f => open_file f path) ;;;
  finally body (fs_op (fun f => close_file f path)).

Definition read_redirects : M W (list (string * string)) :=
  fun w =>
    match load_yaml (fs w) REDIRECTS_YML_PATH with
    | inl e => (Raised e, w)
    | inr items => (Returned items, w)
    end.

(** One iteration of the loop. *)
Definition redirect_one (out_dir : string) (entry : string * string) : M W unit :=
  let '(src, dst) := entry in
  res <- fetch dst ;;
  let bs := html_parser (text res) in
  let opengraph_meta_tags := parse_opengraph_meta bs in
  let out_path := output_path out_dir src in
  with_open out_path
    (html <- generate_redirect_html_proc dst opengraph_meta_tags ;;
     fs_op (fun f => write_file f out_path html) ;;;
     err ("Wrote " +:+ out_path +:+ ": redirect to " +:+ dst)).

Definition redirects_loop (out_dir : string) (items : list (string * string)) : M W unit :=
  for_each items (redirect_one out_dir).

Definition redirects (out_dir : string) : M W unit :=
  items <- read_redirects ;;
  fs_op (fun f => makedirs f out_dir) ;;;
  redirects_loop out_dir items.

End Redirects.

(** ** Vocabulary of the properties *)

(** The opening of a refresh directive, and the whole directive for [url]. *)
Definition REFRESH_OPEN : string := "<meta http-equiv=" +:+ DQ +:+ "refresh" +:+ DQ.

Definition refresh_tag (url : string) : string :=
  REFRESH_OPEN +:+ " content=" +:+ DQ +:+ "0; url=" +:+ url +:+ DQ +:+ ">".

(** The opening of a property tag, and the whole tag for one entry. *)
Definition PROPERTY_OPEN : string := "<meta property=" +:+ DQ.

Definition property_tag (entry : string * string) : string :=
  PROPERTY_OPEN +:+ fst entry +:+ DQ +:+ " content=" +:+ DQ +:+ snd entry +:+ DQ +:+ ">".

Definition HEAD_CLOSE : string := "</head>".

(** The document up to the refresh directive. *)
Definition PREAMBLE : string :=
  "<!DOCTYPE html>" +:+ LF +:+
  "<html lang=" +:+ DQ +:+ "en" +:+ DQ +:+ ">" +:+ LF +:+
  "<head>" +:+ LF +:+
  "    <meta charset=" +:+ DQ +:+ "UTF-8" +:+ DQ +:+ ">" +:+ LF +:+
  "    <title>Redirecting...</title>" +:+ LF.

Definition INDENT : string := "    ".

(** One indented line per entry, in the order of the entries. *)
Fixpoint property_lines (entries : list (string * string)) : string :=
  match entries with
  | [] => ""
  | e :: entries' => INDENT +:+ property_tag e +:+ LF +:+ property_lines entries'
  end.

(** Characters contributed by the entries themselves. *)
Fixpoint entries_length (entries : list (string * string)) : nat :=
  match entries with
  | [] => 0
  | e :: entries' =>
      String.length (fst e) + String.length (snd e) + entries_length entries'
  end.

(** No character that opens a tag. *)
Definition no_lt (s : string) : bool := negb (PyStr.has_char "<" s).

(** The contents of the complete Open Graph tags for property [p], in
    document order. *)
Definition complete_for (p : string) (e : Bs4.PageElement) : bool :=
  Bs4.has_name e "meta"
  && PyStr.startswith p "og:"
  && bool_decide (Bs4.get e "property" = Some p)
  && match Bs4.get e "content" with
     | Some c => PyStr.nonempty c
     | None => false
     end.

Fixpoint contents (tags : list Bs4.PageElement) : list string :=
  match tags with
  | [] => []
  | t :: tags' =>
      match Bs4.get t "content" with
      | Some c => c :: contents tags'
      | None => contents tags'
      end
  end.

Definition og_contents (p : string) (bs : Bs4.PageElement) : list string :=
  contents (List.filter (complete_for p) (Bs4.descendants bs)).

(** A tag whose iteration of the loop assigns to the entry for [p]. *)
Definition writes (p : string) (tag : Bs4.PageElement) : bool :=
  bool_decide (Bs4.get tag "property" = Some p)
  && PyStr.nonempty p
  && match Bs4.get tag "content" with
     | Some c => PyStr.nonempty c
     | None => false
     end.

(** The tags [find_all] selects whose [property] is [p]: the Open Graph tags
    for [p], complete or not, in document order. *)
Definition selected_for (p : string) (bs : Bs4.PageElement) : list Bs4.PageElement :=
  List.filter (fun t => bool_decide (Bs4.get t "property" = Some p))
              (Bs4.find_all "meta" "property" og_property bs).

(** A tag with both attributes present and non-empty. *)
Definition complete (e : Bs4.PageElement) : bool :=
  match Bs4.get e "property", Bs4.get e "content" with
  | Some p, Some c => PyStr.nonempty p && PyStr.nonempty c
  | _, _ => false
  end.

(** [path] names a file directly inside [dir]: [dir], one separator, and a
    non-empty name without separators. *)
Definition directly_inside (dir path : string) : bool :=
  let dir' := if negb (PyStr.nonempty dir) || PyStr.endswith dir "/"
              then dir else dir +:+ "/" in
  match PyStr.strip_prefix dir' path with
  | Some base => PyStr.nonempty base && negb (PyStr.has_char "/" base)
  | None => false
  end.

(** The [property] values of a list of tags, in order. *)
Fixpoint properties (tags : list Bs4.PageElement) : list string :=
  match tags with
  | [] => []
  | t :: tags' =>
      match Bs4.get t "property" with
      | Some p => p :: properties tags'
      | None => properties tags'
      end
  end.

(** [k in ks] *)
Definition mem (k : string) (ks : list string) : bool :=
  existsb (fun k' => String.eqb k' k) ks.

(** Each string once, at the place of its first occurrence. *)
Fixpoint first_occurrences (l : list string) : list string :=
  match l with
  | [] => []
  | x :: l' => x :: List.filter (fun y => negb (String.eqb x y)) (first_occurrences l')
  end.

(** The progress line printed after the page of [entry] is written. *)
Definition wrote_line (out_dir : string) (entry : string * string) : string :=
  "Wrote " +:+ output_path out_dir (fst entry) +:+ ": redirect to " +:+ snd entry.

(** *** Reading the tags of a document

    What a generated page contains is read off its text the way a consumer of
    the page reads it: a tag runs from [<] to the next [>] outside a quoted
    value, and holds a name and attributes [name="value"] (or [name=value],
    or a bare [name]).  Character references are not decoded. *)

Record html_tag : Type := mk_tag {
  tag_name : string;
  tag_attrs : list (string * string)
}.

Inductive reader : Type :=
| InText
| InName (name : string)
| BeforeAttr (name : string) (attrs : list (string * string))
| InAttr (name : string) (attrs : list (string * string)) (key : string)
| AfterEq (name : string) (attrs : list (string * string)) (key : string)
| InQuoted (name : string) (attrs : list (string * string)) (key value : string)
| InUnquoted (name : string) (attrs : list (string * string)) (key value : string).

Definition is_space (c : ascii) : bool :=
  Ascii.eqb c " " || Ascii.eqb c (ascii_of_nat 10)
  || Ascii.eqb c (ascii_of_nat 9) || Ascii.eqb c (ascii_of_nat 13).

Definition snoc (s : string) (c : ascii) : string := s +:+ String c "".

Definition read_char (st : reader) (c : ascii) : option html_tag * reader :=
  match st with
  | InText =>
      if Ascii.eqb c "<" then (None, InName "") else (None, InText)
  | InName n =>
      if Ascii.eqb c ">" then (Some (mk_tag n []), InText)
      else if is_space c then (None, BeforeAttr n [])
      else (None, InName (snoc n c))
  | BeforeAttr n a =>
      if Ascii.eqb c ">" then (Some (mk_tag n a), InText)
      else if is_space c then (None, BeforeAttr n a)
      else (None, InAttr n a (String c ""))
  | InAttr n a k =>
      if Ascii.eqb c "=" then (None, AfterEq n a k)
      else if Ascii.eqb c ">" then (Some (mk_tag n (a ++ [(k, "")])), InText)
      else if is_space c then (None, BeforeAttr n (a ++ [(k, "")]))
      else (None, InAttr n a (snoc k c))
  | AfterEq n a k =>
      if Ascii.eqb c (ascii_of_nat 34) then (None, InQuoted n a k "")
      else if Ascii.eqb c ">" then (Some (mk_tag n (a ++ [(k, "")])), InText)
      else if is_space c then (None, AfterEq n a k)
      else (None, InUnquoted n a k (String c ""))
  | InQuoted n a k v =>
      if Ascii.eqb c (ascii_of_nat 34) then (None, BeforeAttr n (a ++ [(k, v)]))
      else (None, InQuoted n a k (snoc v c))
  | InUnquoted n a k v =>
      if Ascii.eqb c ">" then (Some (mk_tag n (a ++ [(k, v)])), InText)
      else if is_space c then (None, BeforeAttr n (a ++ [(k, v)]))
      else (None, InUnquoted n a k (snoc v c))
  end.

(** The tags completed while reading [s] from state [st], and the state
    reached. *)
Fixpoint read (st : reader) (s : string) : list html_tag * reader :=
  match s with
  | EmptyString => ([], st)
  | String c s' =>
      let '(emitted, st') := read_char st c in
      let '(rest, st'') := read st' s' in
      (match emitted with Some t => t :: rest | None => rest end, st'')
  end.

Definition html_tags (doc : string) : list html_tag := fst (read InText doc).

(** The value of an attribute of a tag (the first one of that name). *)
Definition attr (t : html_tag) (key : string) : option string :=
  PyDict.get key (tag_attrs t).

(** A [meta] tag with [http-equiv="refresh"]. *)
Definition is_refresh_meta (t : html_tag) : bool :=
  String.eqb (tag_name t) "meta"
  && match attr t "http-equiv" with
     | Some v => String.eqb v "refresh"
     | None => false
     end.

(** A [meta] tag with a [property] attribute. *)
Definition is_property_meta (t : html_tag) : bool :=
  String.eqb (tag_name t) "meta"
  && match attr t "property" with Some _ => true | None => false end.

(** The refresh directive for [url] with delay 0, and the tag of one entry. *)
Definition refresh_meta (url : string) : html_tag :=
  mk_tag "meta" [("http-equiv", "refresh"); ("content", "0; url=" +:+ url)].

Definition property_meta (entry : string * string) : html_tag :=
  mk_tag "meta" [("property", fst entry); ("content", snd entry)].

(** The tags of the fixed parts of the page. *)
Definition HEAD_TAGS : list html_tag :=
  [mk_tag "!DOCTYPE" [("html", "")];
   mk_tag "html" [("lang", "en")];
   mk_tag "head" [];
   mk_tag "meta" [("charset", "UTF-8")];
   mk_tag "title" [];
   mk_tag "/title" []].

Definition tail_tags (url : string) : list html_tag :=
  [mk_tag "/head" [];
   mk_tag "body" [];
   mk_tag "p" [];
   mk_tag "a" [("href", url)];
   mk_tag "/a" [];
   mk_tag "/p" [];
   mk_tag "/body" [];
   mk_tag "/html" []].

(** No double quote, which would end an attribute value. *)
Definition no_quote (s : string) : bool := negb (PyStr.has_char (ascii_of_nat 34) s).

(** Inputs that cannot be mistaken for markup where the templates put them:
    the URL (used in attribute values and as text) has no double quote and
    no [<]; metadata names and values (used in attribute values) have no
    double quote. *)
Definition plain (url : string) (og_tags : PyDict.dict) : bool :=
  no_quote url && no_lt url
  && forallb (fun e => no_quote (fst e) && no_quote (snd e)) og_tags.

(** * Properties *)

(** ** Strings *)

Section StringFacts.

Lemma app_cons (c : ascii) (s t : string) : String c s +:+ t = String c (s +:+ t).
Proof. reflexivity. Qed.

Lemma app_empty_l (t : string) : "" +:+ t = t.
Proof. reflexivity. Qed.

Lemma app_empty_r (s : string) : s +:+ "" = s.
Proof. induction s as [|c s IH]; [reflexivity|]. rewrite app_cons, IH. reflexivity. Qed.

Lemma app_assoc (s t u : string) : (s +:+ t) +:+ u = s +:+ t +:+ u.
Proof.
  induction s as [|c s IH]; [reflexivity|].
  rewrite !app_cons, IH. reflexivity.
Qed.

Lemma app_length (s t : string) :
  String.length (s +:+ t) = String.length s + String.length t.
Proof.
  induction s as [|c s IH]; [reflexivity|].
  rewrite app_cons. simpl. rewrite IH. reflexivity.
Qed.

Lemma startswith_app (p t : string) : PyStr.startswith (p +:+ t) p = true.
Proof.
  induction p as [|c p IH]; [reflexivity|].
  rewrite app_cons. simpl. rewrite Ascii.eqb_refl. exact IH.
Qed.

Lemma startswith_spec (s p : string) :
  PyStr.startswith s p = true <-> exists t, s = p +:+ t.
Proof.
  split.
  - revert s. induction p as [|a p IH]; intros s H.
    + exists s. reflexivity.
    + destruct s as [|b s]; [discriminate|]. simpl in H.
      apply andb_prop in H as [Hab Hs]. apply Ascii.eqb_eq in Hab. subst b.
      destruct (IH _ Hs) as [t ->]. exists t. reflexivity.
  - intros [t ->]. apply startswith_app.
Qed.

Lemma contains_here (s needle : string) :
  PyStr.startswith s needle = true -> PyStr.contains s needle = true.
Proof. intros H. destruct s; simpl in *; rewrite H; reflexivity. Qed.

Lemma contains_app (pre needle post : string) :
  PyStr.contains (pre +:+ needle +:+ post) needle = true.
Proof.
  induction pre as [|c pre IH].
  - rewrite app_empty_l. apply contains_here, startswith_app.
  - rewrite app_cons. simpl. rewrite IH. apply orb_true_r.
Qed.

Lemma contains_spec (s needle : string) :
  PyStr.contains s needle = true <-> exists pre post, s = pre +:+ needle +:+ post.
Proof.
  split.
  - induction s as [|c s IH]; simpl; intros H.
    + rewrite orb_false_r in H. apply startswith_spec in H as [t Ht].
      exists "", t. exact Ht.
    + apply orb_prop in H as [H|H].
      * apply startswith_spec in H as [t Ht]. exists "", t. exact Ht.
      * destruct (IH H) as (pre & post & ->). exists (String c pre), post. reflexivity.
  - intros (pre & post & ->). apply contains_app.
Qed.

Lemma substring_all (u : string) : substring 0 (String.length u) u = u.
Proof. induction u as [|a u IH]; [reflexivity|]. simpl. f_equal. exact IH. Qed.

Lemma substring_after (t p : string) (n : nat) :
  substring (String.length t) n (t +:+ p) = substring 0 n p.
Proof. induction t as [|c t IH]; [reflexivity|]. rewrite app_cons. exact IH. Qed.

Lemma substring_split (s : string) (m n : nat) :
  m + n = String.length s -> exists t, s = t +:+ substring m n s.
Proof.
  revert m. induction s as [|c s IH]; intros m H.
  - simpl in H. assert (m = 0) as -> by lia. assert (n = 0) as -> by lia.
    exists "". reflexivity.
  - destruct m as [|m].
    + exists "". simpl in H. subst n. rewrite app_empty_l.
      symmetry. apply (substring_all (String c s)).
    + simpl in H. destruct (IH m) as [t Ht]; [lia|].
      exists (String c t). rewrite app_cons. simpl. f_equal. exact Ht.
Qed.

Lemma endswith_spec (s p : string) :
  PyStr.endswith s p = true <-> exists t, s = t +:+ p.
Proof.
  unfold PyStr.endswith. split.
  - intros H. apply andb_prop in H as [Hlen Heq].
    apply Nat.leb_le in Hlen. apply String.eqb_eq in Heq.
    destruct (substring_split s (String.length s - String.length p) (String.length p))
      as [t Ht]; [lia|].
    rewrite Heq in Ht. exists t. exact Ht.
  - intros [t ->]. rewrite app_length. apply andb_true_intro. split.
    + apply Nat.leb_le. lia.
    + apply String.eqb_eq.
      replace (String.length t + String.length p - String.length p)
        with (String.length t) by lia.
      rewrite substring_after. apply substring_all.
Qed.

End StringFacts.

(** ** The generator *)

Section Generator.

Lemma og_line_property_tag (prop content : string) :
  og_line prop content = INDENT +:+ property_tag (prop, content) +:+ LF.
Proof.
  unfold og_line, property_tag, PROPERTY_OPEN, INDENT. simpl fst. simpl snd.
  rewrite !app_assoc. reflexivity.
Qed.

(** The accumulator grows by one line per item, in the order of the items. *)
Lemma fold_left_og_lines (items : list (string * string)) (html : string) :
  fold_left (fun html '(prop, content) => html +:+ og_line prop content) items html
  = html +:+ property_lines items.
Proof.
  revert html. induction items as [|[prop content] items IH]; intros html.
  - simpl. symmetry. apply app_empty_r.
  - cbn [fold_left property_lines]. rewrite IH, og_line_property_tag.
    rewrite !app_assoc. reflexivity.
Qed.

Lemma html_head_refresh_tag (url : string) :
  html_head url = PREAMBLE +:+ INDENT +:+ refresh_tag url +:+ LF.
Proof.
  unfold html_head, refresh_tag. rewrite !app_assoc. reflexivity.
Qed.

(** The shape of every generated document. *)
Lemma generate_redirect_html_shape (url : string) (og_tags : PyDict.dict) :
  generate_redirect_html url og_tags
  = PREAMBLE +:+ INDENT +:+ refresh_tag url +:+ LF
    +:+ property_lines og_tags +:+ html_tail url.
Proof.
  unfold generate_redirect_html, PyDict.items.
  rewrite fold_left_og_lines, html_head_refresh_tag, !app_assoc. reflexivity.
Qed.

(** The templates as literals around their holes. *)
Lemma head_segments (url t : string) :
  PREAMBLE +:+ INDENT +:+ refresh_tag url +:+ LF +:+ t
  = (PREAMBLE +:+ INDENT +:+ REFRESH_OPEN +:+ " content=" +:+ DQ +:+ "0; url=")
    +:+ url +:+ (DQ +:+ ">" +:+ LF) +:+ t.
Proof. unfold refresh_tag. rewrite !app_assoc. reflexivity. Qed.

Lemma line_segments (e : string * string) (t : string) :
  INDENT +:+ property_tag e +:+ LF +:+ t
  = (INDENT +:+ PROPERTY_OPEN) +:+ fst e +:+ (DQ +:+ " content=" +:+ DQ)
    +:+ snd e +:+ (DQ +:+ ">" +:+ LF) +:+ t.
Proof. unfold property_tag. rewrite !app_assoc. reflexivity. Qed.

Lemma tail_segments (url t : string) :
  html_tail url +:+ t
  = (HEAD_CLOSE +:+ LF +:+ "<body><p>Redirecting to <a href=" +:+ DQ)
    +:+ url +:+ (DQ +:+ ">") +:+ url
    +:+ ("</a>.</p></body>" +:+ LF +:+ "</html>" +:+ LF) +:+ t.
Proof. unfold html_tail. rewrite !app_assoc. reflexivity. Qed.


End Generator.

(** ** Reading the tags of a generated document *)

Section Reader.

Lemma read_app (st : reader) (s t : string) :
  read st (s +:+ t)
  = (fst (read st s) ++ fst (read (snd (read st s)) t),
     snd (read (snd (read st s)) t)).
Proof.
  revert st. induction s as [|c s IH]; intros st.
  - rewrite app_empty_l. cbn. destruct (read st t); reflexivity.
  - rewrite app_cons. cbn [read].
    destruct (read_char st c) as [emitted st'].
    rewrite (IH st').
    destruct (read st' s) as [o1 st1]. cbn [fst snd].
    destruct (read st1 t) as [o2 st2]. cbn [fst snd].
    destruct emitted; reflexivity.
Qed.

(** Text without [<] opens no tag. *)
Lemma read_text (u : string) :
  PyStr.has_char "<" u = false -> read InText u = ([], InText).
Proof.
  induction u as [|c u IH]; intros H; [reflexivity|].
  simpl in H. apply orb_false_elim in H as [Hc Hu].
  cbn [read read_char]. rewrite Hc, (IH Hu). reflexivity.
Qed.

(** A value without a double quote stays inside its attribute. *)
Lemma read_quoted (n : string) (a : list (string * string)) (k v0 v : string) :
  PyStr.has_char (ascii_of_nat 34) v = false ->
  read (InQuoted n a k v0) v = ([], InQuoted n a k (v0 +:+ v)).
Proof.
  revert v0. induction v as [|c v IH]; intros v0 H.
  - rewrite app_empty_r. reflexivity.
  - simpl in H. apply orb_false_elim in H as [Hc Hv].
    cbn [read read_char]. rewrite Hc, (IH _ Hv). unfold snoc.
    rewrite app_assoc. reflexivity.
Qed.

(** The literals of the templates. *)
Lemma read_head_open :
  read InText (PREAMBLE +:+ INDENT +:+ REFRESH_OPEN +:+ " content=" +:+ DQ +:+ "0; url=")
  = (HEAD_TAGS, InQuoted "meta" [("http-equiv", "refresh")] "content" "0; url=").
Proof. vm_compute. reflexivity. Qed.

Lemma read_tag_close (n : string) (a : list (string * string)) (k v : string) :
  read (InQuoted n a k v) (DQ +:+ ">" +:+ LF) = ([mk_tag n (a ++ [(k, v)])], InText).
Proof. reflexivity. Qed.

Lemma read_line_open :
  read InText (INDENT +:+ PROPERTY_OPEN) = ([], InQuoted "meta" [] "property" "").
Proof. vm_compute. reflexivity. Qed.

Lemma read_line_content (n : string) (a : list (string * string)) (k v : string) :
  read (InQuoted n a k v) (DQ +:+ " content=" +:+ DQ)
  = ([], InQuoted n (a ++ [(k, v)]) "content" "").
Proof. reflexivity. Qed.

Lemma read_tail_open :
  read InText (HEAD_CLOSE +:+ LF +:+ "<body><p>Redirecting to <a href=" +:+ DQ)
  = ([mk_tag "/head" []; mk_tag "body" []; mk_tag "p" []], InQuoted "a" [] "href" "").
Proof. vm_compute. reflexivity. Qed.

Lemma read_link_close (n : string) (a : list (string * string)) (k v : string) :
  read (InQuoted n a k v) (DQ +:+ ">") = ([mk_tag n (a ++ [(k, v)])], InText).
Proof. reflexivity. Qed.

Lemma read_tail_close :
  read InText ("</a>.</p></body>" +:+ LF +:+ "</html>" +:+ LF)
  = ([mk_tag "/a" []; mk_tag "/p" []; mk_tag "/body" []; mk_tag "/html" []], InText).
Proof. vm_compute. reflexivity. Qed.

(** One property line per entry gives one tag per entry. *)
Lemma read_property_lines (og_tags : PyDict.dict) (t : string) :
  forallb (fun e => no_quote (fst e) && no_quote (snd e)) og_tags = true ->
  read InText (property_lines og_tags +:+ t)
  = (map property_meta og_tags ++ fst (read InText t), snd (read InText t)).
Proof.
  induction og_tags as [|e og_tags IH]; intros H.
  - rewrite app_empty_l. cbn. destruct (read InText t); reflexivity.
  - simpl in H. apply andb_prop in H as [He Hrest].
    apply andb_prop in He as [Hp Hc]. apply negb_true_iff in Hp, Hc.
    cbn [property_lines]. rewrite !app_assoc, line_segments.
    rewrite read_app, read_line_open. cbn [fst snd].
    rewrite read_app, (read_quoted _ _ _ _ _ Hp). cbn [fst snd].
    rewrite read_app, read_line_content. cbn [fst snd].
    rewrite read_app, (read_quoted _ _ _ _ _ Hc). cbn [fst snd].
    rewrite read_app, read_tag_close. cbn [fst snd].
    rewrite (IH Hrest). cbn [fst snd]. reflexivity.
Qed.

Lemma read_html_tail (url : string) :
  no_quote url = true -> no_lt url = true ->
  read InText (html_tail url) = (tail_tags url, InText).
Proof.
  intros Hq Hl. apply negb_true_iff in Hq, Hl.
  rewrite <- (app_empty_r (html_tail url)), tail_segments.
  rewrite read_app, read_tail_open. cbn [fst snd].
  rewrite read_app, (read_quoted _ _ _ _ _ Hq). cbn [fst snd].
  rewrite read_app, read_link_close. cbn [fst snd].
  rewrite read_app, (read_text _ Hl). cbn [fst snd].
  rewrite app_empty_r, read_tail_close. reflexivity.
Qed.

(** The tags of a document generated from plain inputs. *)
Lemma html_tags_document (url : string) (og_tags : PyDict.dict) :
  plain url og_tags = true ->
  html_tags (generate_redirect_html url og_tags)
  = HEAD_TAGS ++ [refresh_meta url] ++ map property_meta og_tags ++ tail_tags url.
Proof.
  intros H. apply andb_prop in H as [Hu Hog]. apply andb_prop in Hu as [Hq Hl].
  unfold html_tags. rewrite generate_redirect_html_shape, head_segments.
  rewrite read_app, read_head_open. cbn [fst snd].
  rewrite read_app, (read_quoted _ _ _ _ _ (proj1 (negb_true_iff _) Hq)). cbn [fst snd].
  rewrite read_app, read_tag_close. cbn [fst snd].
  rewrite (read_property_lines _ _ Hog), (read_html_tail url Hq Hl). cbn [fst snd].
  reflexivity.
Qed.

Lemma filter_refresh_property_metas (entries : list (string * string)) :
  List.filter is_refresh_meta (map property_meta entries) = [].
Proof.
  induction entries as [|e entries IH]; [reflexivity|].
  cbn [map List.filter]. rewrite IH.
  unfold is_refresh_meta, attr, property_meta. cbn. reflexivity.
Qed.

Lemma filter_property_property_metas (entries : list (string * string)) :
  List.filter is_property_meta (map property_meta entries) = map property_meta entries.
Proof.
  induction entries as [|e entries IH]; [reflexivity|].
  cbn [map List.filter]. rewrite IH. reflexivity.
Qed.

End Reader.

Section GeneratorClaims.

Lemma property_lines_In (e : string * string) (entries : list (string * string)) :
  In e entries ->
  exists pre post, property_lines entries = pre +:+ property_tag e +:+ post.
Proof.
  induction entries as [|e' entries IH]; intros H; [contradiction|].
  destruct H as [->|H].
  - exists INDENT, (LF +:+ property_lines entries). reflexivity.
  - destruct (IH H) as (pre & post & Heq).
    exists (INDENT +:+ property_tag e' +:+ LF +:+ pre), post.
    cbn [property_lines]. rewrite Heq, !app_assoc. reflexivity.
Qed.

Lemma property_lines_length (entries : list (string * string)) :
  String.length (property_lines entries)
  = 34 * List.length entries + entries_length entries.
Proof.
  induction entries as [|e entries IH]; [reflexivity|].
  cbn [property_lines entries_length List.length].
  unfold property_tag. rewrite !app_length, IH.
  change (String.length INDENT) with 4.
  change (String.length PROPERTY_OPEN) with 16.
  change (String.length DQ) with 1.
  change (String.length LF) with 1.
  change (String.length " content=") with 9.
  change (String.length ">") with 1.
  lia.
Qed.

(** C1, as amended: every generated document is the fixed preamble, then the
    refresh directive for the destination (delay 0), then one property line
    per entry in the order of the entries, then the closing of the head and
    the body.  When the URL contains neither a double quote nor [<] and no
    metadata name or value contains a double quote, the tags of the document
    are those of the templates: it has exactly one refresh-meta tag, which
    requests navigation to the destination after 0 seconds, and exactly one
    property-meta tag per entry, with the entry's name and value, in the
    order of the entries, after the refresh directive and before the
    closing of the head. *)
Theorem generate_redirect_html_tags (url : string) (og_tags : PyDict.dict) :
  let doc := generate_redirect_html url og_tags in
  doc = PREAMBLE +:+ INDENT +:+ refresh_tag url +:+ LF
        +:+ property_lines og_tags +:+ html_tail url
  /\ (plain url og_tags = true ->
      html_tags doc
      = HEAD_TAGS ++ [refresh_meta url] ++ map property_meta og_tags ++ tail_tags url
      /\ List.filter is_refresh_meta (html_tags doc) = [refresh_meta url]
      /\ List.filter is_property_meta (html_tags doc) = map property_meta og_tags).
Proof.
  intros doc. subst doc.
  split; [apply generate_redirect_html_shape|]. intros H.
  pose proof (html_tags_document url og_tags H) as Htags.
  split; [exact Htags|]. rewrite Htags. split.
  - rewrite !List.filter_app, filter_refresh_property_metas. reflexivity.
  - rewrite !List.filter_app, filter_property_property_metas.
    cbn. rewrite app_nil_r. reflexivity.
Qed.

Lemma generate_redirect_html_tags_witness :
  let url := "https://example.com/?a=1&b=2" in
  let og_tags := [("og:title", "Tom & Jerry <live>"); ("og:type", "website")] in
  plain url og_tags = true
  /\ List.filter is_refresh_meta (html_tags (generate_redirect_html url og_tags))
     = [refresh_meta url]
  /\ List.filter is_property_meta (html_tags (generate_redirect_html url og_tags))
     = [property_meta ("og:title", "Tom & Jerry <live>");
        property_meta ("og:type", "website")].
Proof.
  intros url og_tags.
  assert (Hplain : plain url og_tags = true) by reflexivity.
  split; [exact Hplain|].
  destruct (generate_redirect_html_tags url og_tags) as [_ Htags].
  destruct (Htags Hplain) as (_ & Hr & Hp).
  split; [exact Hr | exact Hp].
Defined.

(** C1, as stated, fails: a metadata value is copied into the document as
    it is, so a value that itself spells a tag adds one.  Here a single
    entry yields a second refresh directive for the same destination with
    the same delay: the document holds the directive twice, as text and as
    a tag. *)
Lemma generate_redirect_html_injected_refresh :
  let url := "https://example.com" in
  let og_tags :=
    [("og:title",
      "x" +:+ DQ +:+ "><meta http-equiv=" +:+ DQ +:+ "refresh" +:+ DQ +:+
      " content=" +:+ DQ +:+ "0; url=https://example.com")] in
  let doc := generate_redirect_html url og_tags in
  PyStr.occurrences (refresh_tag url) doc = 2
  /\ List.filter is_refresh_meta (html_tags doc) = [refresh_meta url; refresh_meta url]
  /\ List.filter is_refresh_meta (html_tags doc) <> [refresh_meta url].
Proof.
  vm_compute. split; [reflexivity|]. split; [reflexivity | discriminate].
Qed.

(** A double quote is enough: without any [<], a value that closes its
    attribute turns the entry's own tag into a second refresh directive,
    with another delay and another destination. *)
Example generate_redirect_html_quote_refresh :
  let url := "https://example.com" in
  let og_tags :=
    [("og:title",
      "5; url=https://elsewhere.example" +:+ DQ +:+ " http-equiv=" +:+ DQ +:+ "refresh")] in
  no_lt url = true
  /\ forallb (fun e => no_lt (fst e) && no_lt (snd e)) og_tags = true
  /\ List.length
       (List.filter is_refresh_meta (html_tags (generate_redirect_html url og_tags)))
     = 2.
Proof. vm_compute. repeat split; reflexivity. Qed.

(** C5: the destination URL and every metadata name and value are copied
    into the document character for character: the refresh directive, the
    fallback link and each property tag appear with their raw values, and
    the document's length is that of the templates plus that of the raw
    values, so nothing is escaped, dropped or expanded. *)
Theorem generate_redirect_html_verbatim (url : string) (og_tags : PyDict.dict) :
  let doc := generate_redirect_html url og_tags in
  PyStr.contains doc (refresh_tag url) = true
  /\ PyStr.contains doc
       ("<a href=" +:+ DQ +:+ url +:+ DQ +:+ ">" +:+ url +:+ "</a>") = true
  /\ Forall (fun e => PyStr.contains doc (property_tag e) = true) og_tags
  /\ String.length doc
     = 219 + 3 * String.length url + 34 * List.length og_tags
       + entries_length og_tags.
Proof.
  intros doc. subst doc. rewrite generate_redirect_html_shape. repeat split.
  - rewrite <- (app_assoc PREAMBLE INDENT). apply contains_app.
  - apply contains_spec.
    exists (PREAMBLE +:+ INDENT +:+ refresh_tag url +:+ LF +:+ property_lines og_tags
            +:+ HEAD_CLOSE +:+ LF +:+ "<body><p>Redirecting to ").
    exists (".</p></body>" +:+ LF +:+ "</html>" +:+ LF).
    unfold html_tail. rewrite !app_assoc. reflexivity.
  - apply Forall_forall. intros e He. apply list_elem_of_In in He.
    destruct (property_lines_In e og_tags He) as (pre & post & ->).
    apply contains_spec.
    exists (PREAMBLE +:+ INDENT +:+ refresh_tag url +:+ LF +:+ pre).
    exists (post +:+ html_tail url).
    rewrite !app_assoc. reflexivity.
  - unfold refresh_tag, html_tail.
    rewrite !app_length, property_lines_length.
    change (String.length PREAMBLE) with 101.
    change (String.length INDENT) with 4.
    change (String.length REFRESH_OPEN) with 26.
    change (String.length HEAD_CLOSE) with 7.
    change (String.length DQ) with 1.
    change (String.length LF) with 1.
    cbn [String.length]. lia.
Qed.

Lemma for_fold_og_lines {W} (items : list (string * string)) (html : string) (w : W) :
  for_fold items (fun html '(prop, content) => ret (html +:+ og_line prop content))
    html w
  = (Returned
       (fold_left (fun html '(prop, content) => html +:+ og_line prop content)
          items html),
     w).
Proof.
  revert html. induction items as [|[prop content] items IH]; intros html.
  - reflexivity.
  - cbn [for_fold fold_left]. unfold bind, ret at 1. apply IH.
Qed.

(** The procedure computes the function and touches nothing. *)
Lemma generate_redirect_html_proc_run
    {W : Type} (url : string) (og_tags : PyDict.dict) (w : W) :
  generate_redirect_html_proc url og_tags w
  = (Returned (generate_redirect_html url og_tags), w).
Proof.
  unfold generate_redirect_html_proc, generate_redirect_html.
  unfold bind at 1. unfold ret at 1. unfold bind at 1.
  rewrite for_fold_og_lines. reflexivity.
Qed.


End GeneratorClaims.

(** ** Ordered dictionaries *)

Section DictFacts.

Lemma get_set_same (k v : string) (d : PyDict.dict) :
  PyDict.get k (PyDict.set k v d) = Some v.
Proof.
  induction d as [|[k' v'] d IH]; simpl.
  - rewrite String.eqb_refl. reflexivity.
  - destruct (String.eqb k' k) eqn:E; simpl; rewrite E; [reflexivity | exact IH].
Qed.

Lemma get_set_other (k k' v : string) (d : PyDict.dict) :
  k <> k' -> PyDict.get k (PyDict.set k' v d) = PyDict.get k d.
Proof.
  intros Hne. induction d as [|[k0 v0] d IH]; simpl.
  - destruct (String.eqb_spec k' k); [congruence | reflexivity].
  - destruct (String.eqb_spec k0 k'); simpl.
    + destruct (String.eqb_spec k0 k); [congruence | reflexivity].
    + rewrite IH. reflexivity.
Qed.

Lemma entries_set_same (k v : string) (d : PyDict.dict) :
  PyDict.entries k (PyDict.set k v d) = Nat.max 1 (PyDict.entries k d).
Proof.
  unfold PyDict.entries. induction d as [|[k' v'] d IH]; simpl.
  - rewrite String.eqb_refl. reflexivity.
  - destruct (String.eqb k' k) eqn:E; simpl; rewrite E; simpl; [lia | exact IH].
Qed.

Lemma entries_set_other (k k' v : string) (d : PyDict.dict) :
  k <> k' -> PyDict.entries k (PyDict.set k' v d) = PyDict.entries k d.
Proof.
  intros Hne. unfold PyDict.entries. induction d as [|[k0 v0] d IH]; simpl.
  - destruct (String.eqb_spec k' k); [congruence | reflexivity].
  - destruct (String.eqb_spec k0 k'); simpl.
    + destruct (String.eqb k0 k); reflexivity.
    + destruct (String.eqb k0 k); simpl; rewrite IH; reflexivity.
Qed.

Lemma get_Some_entries (k v : string) (d : PyDict.dict) :
  PyDict.get k d = Some v -> 1 <= PyDict.entries k d.
Proof.
  unfold PyDict.entries. induction d as [|[k' v'] d IH]; simpl; [discriminate|].
  destruct (String.eqb k' k); simpl; [lia | exact IH].
Qed.

(** What an assignment leaves in the dictionary. *)
Lemma In_set (e : string * string) (k v : string) (d : PyDict.dict) :
  In e (PyDict.set k v d) -> In e d \/ e = (k, v).
Proof.
  induction d as [|[k' v'] d IH]; simpl.
  - intros [<-|[]]. right. reflexivity.
  - destruct (String.eqb_spec k' k) as [->|Hne]; simpl.
    + intros [<-|H]; [right; reflexivity | left; right; exact H].
    + intros [<-|H]; [left; left; reflexivity|].
      destruct (IH H) as [H'|H']; [left; right; exact H' | right; exact H'].
Qed.

End DictFacts.

(** ** The extractor *)

Section Extractor.

Lemma record_tag_writes (p : string) (d : PyDict.dict) (tag : Bs4.PageElement) :
  writes p tag = true ->
  exists c, Bs4.get tag "content" = Some c
            /\ PyStr.nonempty c = true
            /\ record_tag d tag = PyDict.set p c d.
Proof.
  unfold writes, record_tag. intros H.
  apply andb_prop in H as [H Hc]. apply andb_prop in H as [Hp Hn].
  apply bool_decide_eq_true in Hp. rewrite Hp.
  destruct (Bs4.get tag "content") as [c|]; [|discriminate].
  exists c. rewrite Hn, Hc. auto.
Qed.

Lemma record_tag_other (p : string) (d : PyDict.dict) (tag : Bs4.PageElement) :
  writes p tag = false ->
  PyDict.get p (record_tag d tag) = PyDict.get p d
  /\ PyDict.entries p (record_tag d tag) = PyDict.entries p d.
Proof.
  unfold writes, record_tag. intros H.
  destruct (Bs4.get tag "property") as [q|]; [|auto].
  destruct (Bs4.get tag "content") as [c|]; [|auto].
  destruct (PyStr.nonempty q) eqn:Hq; [|auto].
  destruct (PyStr.nonempty c) eqn:Hc; [|auto].
  simpl. destruct (String.eqb_spec p q) as [->|Hne].
  - rewrite bool_decide_eq_true_2 in H by reflexivity.
    rewrite Hq in H. discriminate.
  - split; [apply get_set_other | apply entries_set_other]; exact Hne.
Qed.

Lemma record_tag_entries (p : string) (d : PyDict.dict) (tag : Bs4.PageElement) :
  PyDict.entries p d <= 1 -> PyDict.entries p (record_tag d tag) <= 1.
Proof.
  intros Hd. destruct (writes p tag) eqn:Hw.
  - destruct (record_tag_writes p d tag Hw) as (c & _ & _ & ->).
    rewrite entries_set_same. lia.
  - destruct (record_tag_other p d tag Hw) as [_ ->]. exact Hd.
Qed.

Lemma fold_record_tag_entries (p : string) (tags : list Bs4.PageElement) (d : PyDict.dict) :
  PyDict.entries p d <= 1 -> PyDict.entries p (fold_left record_tag tags d) <= 1.
Proof.
  revert d. induction tags as [|t tags IH]; intros d Hd; [exact Hd|].
  simpl. apply IH, record_tag_entries, Hd.
Qed.

(** The loop leaves under [p] the content of the last tag that writes it. *)
Lemma fold_record_tag_get (p : string) (tags : list Bs4.PageElement) (d : PyDict.dict) :
  PyDict.get p (fold_left record_tag tags d)
  = match last (contents (List.filter (writes p) tags)) with
    | Some c => Some c
    | None => PyDict.get p d
    end.
Proof.
  revert d. induction tags as [|t tags IH]; intros d; [reflexivity|].
  cbn [fold_left List.filter]. rewrite IH.
  destruct (writes p t) eqn:Hw.
  - destruct (record_tag_writes p d t Hw) as (c & Hc & _ & ->).
    cbn [contents]. rewrite Hc, last_cons.
    destruct (last _); [reflexivity | apply get_set_same].
  - destruct (record_tag_other p d t Hw) as [-> _]. reflexivity.
Qed.

Lemma filter_filter {A} (f g : A -> bool) (l : list A) :
  List.filter f (List.filter g l) = List.filter (fun x => g x && f x) l.
Proof.
  induction l as [|x l IH]; [reflexivity|]. simpl.
  destruct (g x); simpl; [destruct (f x)|]; rewrite IH; reflexivity.
Qed.

(** Among the tags [find_all] selects, the tags that write [p] are the
    complete Open Graph tags for [p]. *)
Lemma writes_find_all (p : string) (bs : Bs4.PageElement) :
  List.filter (writes p) (Bs4.find_all "meta" "property" og_property bs)
  = List.filter (complete_for p) (Bs4.descendants bs).
Proof.
  unfold Bs4.find_all. rewrite filter_filter. apply List.filter_ext. intros e.
  unfold writes, complete_for, og_property.
  destruct (Bs4.has_name e "meta"); [|reflexivity]. cbn [andb].
  destruct (bool_decide (Bs4.get e "property" = Some p)) eqn:Hp.
  - apply bool_decide_eq_true in Hp. rewrite Hp.
    destruct (PyStr.startswith p "og:") eqn:Hs;
      destruct (PyStr.nonempty p) eqn:Hn;
      destruct (Bs4.get e "content") as [c|]; try destruct (PyStr.nonempty c);
      try reflexivity; destruct p; discriminate.
  - destruct (PyStr.startswith p "og:"); cbn [andb];
      rewrite ?andb_false_r; reflexivity.
Qed.

Lemma parse_opengraph_meta_get (p : string) (bs : Bs4.PageElement) :
  PyDict.get p (parse_opengraph_meta bs) = last (og_contents p bs).
Proof.
  unfold parse_opengraph_meta, og_contents.
  rewrite fold_record_tag_get, writes_find_all.
  destruct (last _); reflexivity.
Qed.

Lemma parse_opengraph_meta_entries (p : string) (bs : Bs4.PageElement) :
  PyDict.entries p (parse_opengraph_meta bs) <= 1.
Proof. apply fold_record_tag_entries. unfold PyDict.entries. simpl. lia. Qed.

End Extractor.

Section ExtractorClaims.

Lemma record_tag_incomplete (d : PyDict.dict) (tag : Bs4.PageElement) :
  complete tag = false -> record_tag d tag = d.
Proof.
  unfold complete, record_tag.
  destruct (Bs4.get tag "property") as [p|]; [|reflexivity].
  destruct (Bs4.get tag "content") as [c|]; [|reflexivity].
  intros ->. reflexivity.
Qed.

Lemma fold_record_tag_complete (tags : list Bs4.PageElement) (d : PyDict.dict) :
  fold_left record_tag (List.filter complete tags) d = fold_left record_tag tags d.
Proof.
  revert d. induction tags as [|t tags IH]; intros d; [reflexivity|].
  cbn [List.filter fold_left]. destruct (complete t) eqn:Hc.
  - cbn [fold_left]. apply IH.
  - rewrite (record_tag_incomplete d t Hc). apply IH.
Qed.

(** Every entry of the result was assigned from a tag of the loop. *)
Lemma fold_record_tag_In (e : string * string)
    (tags : list Bs4.PageElement) (d : PyDict.dict) :
  In e (fold_left record_tag tags d) ->
  In e d
  \/ Exists (fun t => complete t = true
                      /\ Bs4.get t "property" = Some (fst e)
                      /\ Bs4.get t "content" = Some (snd e)) tags.
Proof.
  revert d. induction tags as [|t tags IH]; intros d H; [left; exact H|].
  cbn [fold_left] in H. destruct (IH _ H) as [Hd|Hex].
  - unfold record_tag in Hd.
    destruct (Bs4.get t "property") as [p|] eqn:Hp; [|left; exact Hd].
    destruct (Bs4.get t "content") as [c|] eqn:Hc; [|left; exact Hd].
    destruct (PyStr.nonempty p && PyStr.nonempty c) eqn:Hpc; [|left; exact Hd].
    apply In_set in Hd as [Hd| ->]; [left; exact Hd|].
    right. apply Exists_cons_hd. unfold complete. rewrite Hp, Hc. auto.
  - right. apply Exists_cons_tl, Hex.
Qed.

Lemma find_all_og_property (bs t : Bs4.PageElement) :
  In t (Bs4.find_all "meta" "property" og_property bs) ->
  og_property (Bs4.get t "property") = true.
Proof.
  unfold Bs4.find_all. intros H. apply List.filter_In in H as [_ H].
  apply andb_prop in H as [_ H]. exact H.
Qed.

Lemma get_None_entries (k : string) (d : PyDict.dict) :
  PyDict.get k d = None -> PyDict.entries k d = 0.
Proof.
  unfold PyDict.entries. induction d as [|[k' v'] d IH]; simpl; [reflexivity|].
  destruct (String.eqb k' k); [discriminate | exact IH].
Qed.

(** The complete tags among the Open Graph tags for [p]. *)
Lemma complete_selected_for (p : string) (bs : Bs4.PageElement) :
  List.filter complete (selected_for p bs)
  = List.filter (complete_for p) (Bs4.descendants bs).
Proof.
  rewrite <- writes_find_all. unfold selected_for. rewrite filter_filter.
  apply List.filter_ext. intros t. unfold writes, complete.
  destruct (bool_decide (Bs4.get t "property" = Some p)) eqn:Hp; [|reflexivity].
  apply bool_decide_eq_true in Hp. rewrite Hp. cbn [andb].
  destruct (Bs4.get t "content"); [reflexivity|].
  rewrite andb_false_r. reflexivity.
Qed.

Lemma parse_opengraph_meta_entries_count (p : string) (bs : Bs4.PageElement) :
  PyDict.entries p (parse_opengraph_meta bs)
  = match og_contents p bs with [] => 0 | _ :: _ => 1 end.
Proof.
  pose proof (parse_opengraph_meta_get p bs) as Hget.
  destruct (og_contents p bs) as [|c cs] eqn:Hc.
  - apply get_None_entries. rewrite Hget. reflexivity.
  - destruct (last (c :: cs)) as [c'|] eqn:Hlast.
    + pose proof (parse_opengraph_meta_entries p bs).
      pose proof (get_Some_entries _ _ _ Hget). lia.
    + apply last_None in Hlast. discriminate.
Qed.

(** C3, as amended: when a document holds two or more Open Graph tags for
    the same property, the result has at most one entry for that property.
    If at least one of those tags has a non-empty content, it has exactly
    one entry, whose value is the content of the last of them that has a
    non-empty content; a later tag whose content is missing or empty does
    not replace it.  If none has, the result has no entry for the
    property. *)
Theorem parse_opengraph_meta_last_wins (bs : Bs4.PageElement) (p : string) :
  2 <= List.length (selected_for p bs) ->
  PyDict.get p (parse_opengraph_meta bs)
  = last (contents (List.filter complete (selected_for p bs)))
  /\ PyDict.entries p (parse_opengraph_meta bs)
     = match contents (List.filter complete (selected_for p bs)) with
       | [] => 0
       | _ :: _ => 1
       end.
Proof.
  intros _. rewrite complete_selected_for. fold (og_contents p bs).
  split; [apply parse_opengraph_meta_get | apply parse_opengraph_meta_entries_count].
Qed.

Lemma parse_opengraph_meta_last_wins_witness :
  let meta := fun kvs => Bs4.Tag "meta" (list_to_map kvs) [] in
  let bs :=
    Bs4.Tag "[document]" ∅
      [Bs4.Tag "head" ∅
         [meta [("property", "og:title"); ("content", "First")];
          meta [("name", "viewport"); ("content", "width=device-width")];
          meta [("property", "og:title"); ("content", "Second")];
          meta [("property", "og:title")]]] in
  2 <= List.length (selected_for "og:title" bs)
  /\ PyDict.entries "og:title" (parse_opengraph_meta bs) = 1
  /\ PyDict.get "og:title" (parse_opengraph_meta bs) = Some "Second".
Proof.
  intros meta bs.
  assert (Hlen : 2 <= List.length (selected_for "og:title" bs))
    by (vm_compute; lia).
  split; [exact Hlen|].
  destruct (parse_opengraph_meta_last_wins bs "og:title" Hlen) as (Hget & Hone).
  split.
  - rewrite Hone. vm_compute. reflexivity.
  - rewrite Hget. vm_compute. reflexivity.
Defined.

(** C3, as stated, fails: of two Open Graph tags for the same property, the
    later one has an empty content, and the result keeps the content of the
    earlier one. *)
Lemma parse_opengraph_meta_later_empty_content :
  let meta := fun kvs => Bs4.Tag "meta" (list_to_map kvs) [] in
  let earlier := meta [("property", "og:title"); ("content", "First")] in
  let later := meta [("property", "og:title"); ("content", "")] in
  let bs := Bs4.Tag "[document]" ∅ [earlier; later] in
  selected_for "og:title" bs = [earlier; later]
  /\ Bs4.get later "content" = Some ""
  /\ PyDict.get "og:title" (parse_opengraph_meta bs) = Some "First"
  /\ PyDict.get "og:title" (parse_opengraph_meta bs) <> Bs4.get later "content".
Proof.
  vm_compute. split; [reflexivity|]. split; [reflexivity|].
  split; [reflexivity | discriminate].
Qed.

(** C4: a selected tag whose [content] is missing or empty takes no part
    in the result: running the loop over the complete tags alone gives the
    same mapping, and every recorded entry has a non-empty name and a
    non-empty value that are the [property] and [content] of one selected
    tag.  Among the selected tags the incomplete ones are exactly those
    whose [content] is missing or empty. *)
Theorem parse_opengraph_meta_skips_partial (bs : Bs4.PageElement) :
  let tags := Bs4.find_all "meta" "property" og_property bs in
  parse_opengraph_meta bs
  = fold_left record_tag (List.filter complete tags) PyDict.empty
  /\ Forall (fun e =>
               PyStr.nonempty (fst e) = true
               /\ PyStr.nonempty (snd e) = true
               /\ Exists (fun t => Bs4.get t "property" = Some (fst e)
                                   /\ Bs4.get t "content" = Some (snd e)) tags)
            (parse_opengraph_meta bs)
  /\ Forall (fun t =>
               complete t = false
               <-> (Bs4.get t "content" = None \/ Bs4.get t "content" = Some ""))
            tags.
Proof.
  intros tags. split; [|split].
  - unfold parse_opengraph_meta. fold tags.
    symmetry. apply fold_record_tag_complete.
  - apply List.Forall_forall. intros e He.
    unfold parse_opengraph_meta in He. fold tags in He.
    apply fold_record_tag_In in He as [[]|Hex].
    apply List.Exists_exists in Hex as (t & Ht & Hc & Hp & Hv).
    unfold complete in Hc. rewrite Hp, Hv in Hc.
    apply andb_prop in Hc as [Hc1 Hc2].
    split; [exact Hc1|]. split; [exact Hc2|].
    apply List.Exists_exists. exists t. auto.
  - apply List.Forall_forall. intros t Ht.
    apply find_all_og_property in Ht. unfold og_property in Ht.
    unfold complete.
    destruct (Bs4.get t "property") as [p|]; [|discriminate].
    apply andb_prop in Ht as [Hp _]. rewrite Hp.
    destruct (Bs4.get t "content") as [[|a c]|]; cbn.
    + split; auto.
    + split; [discriminate|]. intros [H|H]; discriminate.
    + split; auto.
Qed.

(** C10: every key of the mapping the extractor returns begins with
    [og:]. *)
Theorem parse_opengraph_meta_keys_og (bs : Bs4.PageElement) :
  Forall (fun e => PyStr.startswith (fst e) "og:" = true) (parse_opengraph_meta bs).
Proof.
  apply List.Forall_forall. intros e He.
  unfold parse_opengraph_meta in He.
  apply fold_record_tag_In in He as [[]|Hex].
  apply List.Exists_exists in Hex as (t & Ht & _ & Hp & _).
  apply find_all_og_property in Ht. rewrite Hp in Ht.
  apply andb_prop in Ht as [_ Ht]. exact Ht.
Qed.

End ExtractorClaims.

(** ** Output naming *)

Section Naming.

Lemma has_char_app (c : ascii) (s t : string) :
  PyStr.has_char c (s +:+ t) = PyStr.has_char c s || PyStr.has_char c t.
Proof.
  induction s as [|a s IH]; [reflexivity|].
  rewrite app_cons. simpl. rewrite IH. apply orb_assoc.
Qed.

Lemma strip_prefix_app (p s : string) : PyStr.strip_prefix p (p +:+ s) = Some s.
Proof.
  induction p as [|a p IH]; [reflexivity|].
  rewrite app_cons. simpl. rewrite Ascii.eqb_refl. exact IH.
Qed.

Lemma startswith_has_char (c : ascii) (s : string) :
  PyStr.has_char c s = false -> PyStr.startswith s (String c "") = false.
Proof.
  destruct s as [|a s]; [reflexivity|]. simpl.
  intros H. apply orb_false_elim in H as [H _].
  rewrite Ascii.eqb_sym, H. reflexivity.
Qed.

Lemma output_name_cases (src : string) :
  output_name src = if PyStr.endswith src ".html" then src else src +:+ ".html".
Proof. unfold output_name. destruct (PyStr.endswith src ".html"); reflexivity. Qed.

Lemma output_name_endswith (src : string) :
  PyStr.endswith (output_name src) ".html" = true.
Proof.
  rewrite output_name_cases. destruct (PyStr.endswith src ".html") eqn:E; [exact E|].
  apply endswith_spec. exists src. reflexivity.
Qed.

Lemma output_name_nonempty (src : string) : PyStr.nonempty (output_name src) = true.
Proof.
  pose proof (output_name_endswith src) as H.
  apply endswith_spec in H as [t Ht]. rewrite Ht.
  destruct t; reflexivity.
Qed.

(** C6: the file name is the key itself when the key ends in [.html], and
    the key followed by [.html] otherwise; so [.html] is appended exactly
    when the key does not already end in it, and the name always ends in
    [.html]. *)
Theorem output_name_suffix (src : string) :
  output_name src = (if PyStr.endswith src ".html" then src else src +:+ ".html")
  /\ (output_name src = src +:+ ".html" <-> PyStr.endswith src ".html" = false)
  /\ (output_name src = src <-> PyStr.endswith src ".html" = true)
  /\ PyStr.endswith (output_name src) ".html" = true.
Proof.
  assert (Hgrow : src +:+ ".html" <> src).
  { intros H. apply (f_equal String.length) in H.
    rewrite app_length in H. simpl in H. lia. }
  split; [apply output_name_cases|].
  rewrite output_name_cases.
  destruct (PyStr.endswith src ".html") eqn:E; repeat split; intros;
    try congruence; try exact E.
  apply endswith_spec. exists src. reflexivity.
Qed.

Example output_name_foo : output_name "foo" = "foo.html".
Proof. reflexivity. Qed.

Example output_name_foo_html : output_name "foo.html" = "foo.html".
Proof. reflexivity. Qed.

(** C7, as amended: for a key without the separator [/], the file is
    written directly inside the output directory: the path is the
    directory, one separator unless the directory is empty or already ends
    in one, and the file name, which contains no separator. *)
Theorem output_path_directly_inside (out_dir src : string) :
  PyStr.has_char "/" src = false ->
  directly_inside out_dir (output_path out_dir src) = true
  /\ PyStr.has_char "/" (output_name src) = false
  /\ output_path out_dir src
     = (if negb (PyStr.nonempty out_dir) || PyStr.endswith out_dir "/"
        then out_dir else out_dir +:+ "/") +:+ output_name src.
Proof.
  intros Hsrc.
  assert (Hname : PyStr.has_char "/" (output_name src) = false).
  { rewrite output_name_cases. destruct (PyStr.endswith src ".html"); [exact Hsrc|].
    rewrite has_char_app, Hsrc. reflexivity. }
  assert (Hpath : output_path out_dir src
                  = (if negb (PyStr.nonempty out_dir) || PyStr.endswith out_dir "/"
                     then out_dir else out_dir +:+ "/") +:+ output_name src).
  { unfold output_path, join.
    rewrite (startswith_has_char _ _ Hname).
    destruct (negb (PyStr.nonempty out_dir) || PyStr.endswith out_dir "/");
      [reflexivity|]. rewrite app_assoc. reflexivity. }
  split; [|split; [exact Hname | exact Hpath]].
  unfold directly_inside. rewrite Hpath, strip_prefix_app.
  rewrite output_name_nonempty, Hname. reflexivity.
Qed.

Lemma output_path_directly_inside_witness :
  PyStr.has_char "/" "home" = false
  /\ directly_inside "out" (output_path "out" "home") = true
  /\ output_path "out" "home" = "out/home.html".
Proof.
  assert (H : PyStr.has_char "/" "home" = false) by reflexivity.
  split; [exact H|].
  destruct (output_path_directly_inside "out" "home" H) as (Hin & _ & Hpath).
  split; [exact Hin | exact Hpath].
Defined.

(** C7, as stated, fails: a key that contains [/] puts the file in a
    subdirectory named by the key. *)
Lemma output_path_nested_key :
  output_path "out" "blog/post" = "out/blog/post.html"
  /\ directly_inside "out" (output_path "out" "blog/post") = false.
Proof. split; reflexivity. Qed.

End Naming.

(** ** The fetch-and-write loop *)

Section Loop.

Lemma for_each_cons {W A} (x : A) (l : list A) (body : A -> M W unit) (w : W) :
  for_each (x :: l) body w
  = match body x w with
    | (Returned _, w') => for_each l body w'
    | (Raised e, w') => (Raised e, w')
    end.
Proof. reflexivity. Qed.

Lemma for_each_app {W A} (l1 l2 : list A) (body : A -> M W unit) (w : W) :
  for_each (l1 ++ l2) body w
  = match for_each l1 body w with
    | (Returned _, w1) => for_each l2 body w1
    | (Raised e, w1) => (Raised e, w1)
    end.
Proof.
  revert w. induction l1 as [|x l1 IH]; intros w; [reflexivity|].
  cbn [app]. rewrite !for_each_cons.
  destruct (body x w) as [[[]|e] w']; [apply IH | reflexivity].
Qed.

Context {Net FS : Type}.
Variable html_parser : string -> Bs4.PageElement.
Variable open_file : FS -> string -> option exn * FS.
Variable write_file : FS -> string -> string -> option exn * FS.
Variable close_file : FS -> string -> option exn * FS.

(** One iteration, case by case. *)
Lemma redirect_one_cases
    (requests_get : Net -> string -> get_result * Net)
    (out_dir src dst : string) (w : World Net FS) :
  redirect_one requests_get html_parser open_file write_file close_file
    out_dir (src, dst) w
  = match requests_get (net w) dst with
    | (Got res, n) =>
        match open_file (fs w) (output_path out_dir src) with
        | (Some ex, f) => (Raised ex, mkWorld n f (stdout w))
        | (None, f) =>
            match write_file f (output_path out_dir src)
                    (generate_redirect_html dst
                       (parse_opengraph_meta (html_parser (text res)))) with
            | (Some ex, f1) =>
                match close_file f1 (output_path out_dir src) with
                | (None, f2) => (Raised ex, mkWorld n f2 (stdout w))
                | (Some ex', f2) => (Raised ex', mkWorld n f2 (stdout w))
                end
            | (None, f1) =>
                match close_file f1 (output_path out_dir src) with
                | (None, f2) =>
                    (Returned tt,
                     mkWorld n f2
                       (stdout w ++ ["Wrote " +:+ output_path out_dir src
                                     +:+ ": redirect to " +:+ dst]))
                | (Some ex', f2) =>
                    (Raised ex',
                     mkWorld n f2
                       (stdout w ++ ["Wrote " +:+ output_path out_dir src
                                     +:+ ": redirect to " +:+ dst]))
                end
            end
        end
    | (RequestException e, n) =>
        (Raised (RuntimeError ("Error fetching " +:+ dst +:+ ": " +:+ e)),
         mkWorld n (fs w) (stdout w))
    | (OtherException e, n) => (Raised e, mkWorld n (fs w) (stdout w))
    end.
Proof.
  unfold redirect_one, with_open, finally, bind, fetch, fs_op, err.
  destruct (requests_get (net w) dst) as [[res|e|e] n]; [|reflexivity..].
  cbn [fs net stdout].
  destruct (open_file _ _) as [[ex|] f]; [reflexivity|].
  rewrite generate_redirect_html_proc_run. cbn [fs net stdout].
  destruct (write_file _ _ _) as [[ex|] f1]; cbn [fs net stdout];
    destruct (close_file _ _) as [[ex'|] f2]; reflexivity.
Qed.

Section FetchFailure.

Variable requests_get : Net -> string -> get_result * Net.

(** C2: when the pairs before [(src, dst)] are processed without error
    and the fetch of [dst] then fails, the run ends there by raising an
    error whose message contains [dst]; the file system and the progress
    output are those left by the earlier pairs: nothing is written for
    [(src, dst)] or for any later pair, and nothing written before is
    removed. *)
Theorem redirects_loop_fetch_failure
    (out_dir : string) (before after : list (string * string))
    (src dst e : string) (w w1 : World Net FS) (n : Net) :
  redirects_loop requests_get html_parser open_file write_file close_file
    out_dir before w
  = (Returned tt, w1) ->
  requests_get (net w1) dst = (RequestException e, n) ->
  redirects_loop requests_get html_parser open_file write_file close_file out_dir
    (before ++ (src, dst) :: after) w
  = (Raised (RuntimeError ("Error fetching " +:+ dst +:+ ": " +:+ e)),
     mkWorld n (fs w1) (stdout w1))
  /\ PyStr.contains ("Error fetching " +:+ dst +:+ ": " +:+ e) dst = true.
Proof.
  intros Hbefore Hfetch. split; [|apply contains_app].
  unfold redirects_loop in *. rewrite for_each_app, Hbefore.
  rewrite for_each_cons, redirect_one_cases, Hfetch. reflexivity.
Qed.

End FetchFailure.

Section StatusCode.

(** Two networks that fail alike and answer with the same bodies; the
    status codes of their answers are left free. *)
Variables requests_get1 requests_get2 : Net -> string -> get_result * Net.
Variable same_bodies : Net -> Net -> Prop.
Hypothesis same_bodies_step : forall n1 n2 url,
  same_bodies n1 n2 ->
  match requests_get1 n1 url, requests_get2 n2 url with
  | (Got res1, n1'), (Got res2, n2') => text res1 = text res2 /\ same_bodies n1' n2'
  | (RequestException e1, n1'), (RequestException e2, n2') =>
      e1 = e2 /\ same_bodies n1' n2'
  | (OtherException e1, n1'), (OtherException e2, n2') =>
      e1 = e2 /\ same_bodies n1' n2'
  | _, _ => False
  end.

(** C8: the loop never reads the status code.  Run against two networks
    whose answers differ at most in their status codes, it ends the same
    way, with the same files written with the same contents and the same
    progress output. *)
Theorem redirects_loop_ignores_status
    (out_dir : string) (items : list (string * string)) (w1 w2 : World Net FS) :
  same_bodies (net w1) (net w2) ->
  fs w1 = fs w2 ->
  stdout w1 = stdout w2 ->
  let r1 := redirects_loop requests_get1 html_parser open_file write_file close_file
              out_dir items w1 in
  let r2 := redirects_loop requests_get2 html_parser open_file write_file close_file
              out_dir items w2 in
  fst r1 = fst r2
  /\ fs (snd r1) = fs (snd r2)
  /\ stdout (snd r1) = stdout (snd r2)
  /\ same_bodies (net (snd r1)) (net (snd r2)).
Proof.
  revert w1 w2. induction items as [|[src dst] items IH]; intros w1 w2 Hn Hf Ho.
  - cbn. auto.
  - cbn zeta. unfold redirects_loop. rewrite !for_each_cons, !redirect_one_cases.
    pose proof (same_bodies_step _ _ dst Hn) as Hstep.
    destruct (requests_get1 (net w1) dst) as [[res1|e1|e1] n1'];
      destruct (requests_get2 (net w2) dst) as [[res2|e2|e2] n2'];
      try contradiction; destruct Hstep as [Heq Hn'].
    + rewrite Heq, Hf, Ho.
      destruct (open_file _ _) as [[ex|] f]; [cbn; auto|].
      destruct (write_file _ _ _) as [[ex|] f1];
        destruct (close_file _ _) as [[ex'|] f2]; try (cbn; auto; fail).
      apply (IH (mkWorld n1' f2 _) (mkWorld n2' f2 _)); [exact Hn' | |]; reflexivity.
    + subst e2. cbn. auto.
    + subst e2. cbn. auto.
Qed.

End StatusCode.

End Loop.

(** ** Runs against a small world *)

Section Runs.

Lemma redirects_loop_fetch_failure_witness :
  let requests_get := fun (n : nat) (url : string) =>
    if String.eqb url "https://down.example"
    then (RequestException "Connection refused", S n)
    else (Got (mkResponse 200 "<html></html>"), S n) in
  let html_parser := fun _ : string => Bs4.Tag "[document]" ∅ [] in
  let open_file := fun (f : list (string * string)) (path : string) =>
    (None : option exn, PyDict.set path "" f) in
  let write_file := fun (f : list (string * string)) (path content : string) =>
    (None : option exn, PyDict.set path content f) in
  let close_file := fun (f : list (string * string)) (path : string) =>
    (None : option exn, f) in
  let before := [("home", "https://example.com")] in
  let after := [("docs", "https://example.com/docs")] in
  let w := mkWorld 0 [] [] in
  let w1 := snd (redirects_loop requests_get html_parser open_file write_file close_file
                   "out" before w) in
  let r := redirects_loop requests_get html_parser open_file write_file close_file "out"
             (before ++ ("blog", "https://down.example") :: after) w in
  redirects_loop requests_get html_parser open_file write_file close_file "out" before w
  = (Returned tt, w1)
  /\ requests_get (net w1) "https://down.example"
     = (RequestException "Connection refused", 2)
  /\ fst r = Raised (RuntimeError
                       "Error fetching https://down.example: Connection refused")
  /\ map fst (fs (snd r)) = ["out/home.html"]
  /\ stdout (snd r) = ["Wrote out/home.html: redirect to https://example.com"].
Proof.
  intros requests_get html_parser open_file write_file close_file before after w w1 r.
  assert (Hbefore : redirects_loop requests_get html_parser open_file write_file
                      close_file "out" before w
                    = (Returned tt, w1)) by reflexivity.
  assert (Hfetch : requests_get (net w1) "https://down.example"
                   = (RequestException "Connection refused", 2)) by reflexivity.
  split; [exact Hbefore|]. split; [exact Hfetch|].
  destruct (redirects_loop_fetch_failure html_parser open_file write_file close_file
              requests_get
              "out" before after "blog" "https://down.example" "Connection refused"
              w w1 2 Hbefore Hfetch) as [Hrun _].
  subst r. rewrite Hrun. repeat split; reflexivity.
Defined.

Lemma redirects_loop_ignores_status_witness :
  let body := "<html><head></head></html>" in
  let requests_get := fun (code : nat) (n : unit) (url : string) =>
    (Got (mkResponse code body), n) in
  let html_parser := fun _ : string =>
    Bs4.Tag "[document]" ∅
      [Bs4.Tag "meta" (list_to_map [("property", "og:title"); ("content", "Example")]) []] in
  let open_file := fun (f : list (string * string)) (path : string) =>
    (None : option exn, PyDict.set path "" f) in
  let write_file := fun (f : list (string * string)) (path content : string) =>
    (None : option exn, PyDict.set path content f) in
  let close_file := fun (f : list (string * string)) (path : string) =>
    (None : option exn, f) in
  let items := [("home", "https://example.com")] in
  let w := mkWorld tt [] [] in
  let r1 := redirects_loop (requests_get 200) html_parser open_file write_file close_file
              "out" items w in
  let r2 := redirects_loop (requests_get 404) html_parser open_file write_file close_file
              "out" items w in
  fst r1 = fst r2 /\ fs (snd r1) = fs (snd r2) /\ stdout (snd r1) = stdout (snd r2).
Proof.
  intros body requests_get html_parser open_file write_file close_file items w r1 r2.
  assert (Hstep : forall (n1 n2 : unit) (url : string),
             True ->
             match requests_get 200 n1 url, requests_get 404 n2 url with
             | (Got res1, _), (Got res2, _) => text res1 = text res2 /\ True
             | (RequestException e1, _), (RequestException e2, _) => e1 = e2 /\ True
             | (OtherException e1, _), (OtherException e2, _) => e1 = e2 /\ True
             | _, _ => False
             end).
  { intros n1 n2 url _. simpl. split; [reflexivity | exact I]. }
  destruct (redirects_loop_ignores_status html_parser open_file write_file close_file
              (requests_get 200) (requests_get 404) (fun _ _ => True) Hstep
              "out" items w w I eq_refl eq_refl) as (H1 & H2 & H3 & _).
  split; [exact H1|]. split; [exact H2 | exact H3].
Defined.

(** The end-to-end scenario: one entry, one Open Graph tag on the page. *)
Example redirects_loop_home :
  let requests_get := fun (n : unit) (url : string) =>
    (Got (mkResponse 200 ""), n) in
  let html_parser := fun _ : string =>
    Bs4.Tag "[document]" ∅
      [Bs4.Tag "meta" (list_to_map [("property", "og:title"); ("content", "Example")]) []] in
  let open_file := fun (f : list (string * string)) (path : string) =>
    (None : option exn, PyDict.set path "" f) in
  let write_file := fun (f : list (string * string)) (path content : string) =>
    (None : option exn, PyDict.set path content f) in
  let close_file := fun (f : list (string * string)) (path : string) =>
    (None : option exn, f) in
  let r := redirects_loop requests_get html_parser open_file write_file close_file "out"
             [("home", "https://example.com")] (mkWorld tt [] []) in
  fs (snd r)
  = [("out/home.html",
      PREAMBLE +:+ INDENT +:+ refresh_tag "https://example.com" +:+ LF
      +:+ INDENT +:+ property_tag ("og:title", "Example") +:+ LF
      +:+ html_tail "https://example.com")].
Proof. vm_compute. reflexivity. Qed.

End Runs.



(** ** More on the extractor: order of the entries, lookup, emptiness *)

Section ExtractorOrder.

Lemma mem_app (k : string) (ks ks' : list string) :
  mem k (ks ++ ks') = mem k ks || mem k ks'.
Proof. unfold mem. apply existsb_app. Qed.

Lemma keys_set (k v : string) (d : PyDict.dict) :
  map fst (PyDict.set k v d)
  = if mem k (map fst d) then map fst d else map fst d ++ [k].
Proof.
  induction d as [|[k' v'] d IH]; [reflexivity|].
  cbn [PyDict.set map fst mem existsb].
  destruct (String.eqb k' k) eqn:E; cbn [orb map fst]; [reflexivity|].
  rewrite IH. fold (mem k (map fst d)).
  destruct (mem k (map fst d)); reflexivity.
Qed.

Lemma filter_all {A} (f : A -> bool) (l : list A) :
  (forall x, f x = true) -> List.filter f l = l.
Proof.
  intros H. induction l as [|x l IH]; [reflexivity|].
  simpl. rewrite H, IH. reflexivity.
Qed.

Lemma complete_attrs (t : Bs4.PageElement) :
  complete t = true ->
  exists p c, Bs4.get t "property" = Some p /\ Bs4.get t "content" = Some c
              /\ PyStr.nonempty p = true /\ PyStr.nonempty c = true.
Proof.
  unfold complete.
  destruct (Bs4.get t "property") as [p|]; [|discriminate].
  destruct (Bs4.get t "content") as [c|]; [|discriminate].
  intros H. apply andb_prop in H as [Hp Hc]. exists p, c. auto.
Qed.

Lemma record_tag_complete (d : PyDict.dict) (t : Bs4.PageElement) (p c : string) :
  Bs4.get t "property" = Some p -> Bs4.get t "content" = Some c ->
  PyStr.nonempty p = true -> PyStr.nonempty c = true ->
  record_tag d t = PyDict.set p c d.
Proof. intros Hp Hc Hnp Hnc. unfold record_tag. rewrite Hp, Hc, Hnp, Hnc. reflexivity. Qed.

(** The keys after the loop: those already there, then the new property
    names in the order in which they are first met. *)
Lemma fold_record_tag_keys (tags : list Bs4.PageElement) (d : PyDict.dict) :
  map fst (fold_left record_tag tags d)
  = map fst d
    ++ List.filter (fun k => negb (mem k (map fst d)))
         (first_occurrences (properties (List.filter complete tags))).
Proof.
  revert d. induction tags as [|t tags IH]; intros d.
  - simpl. symmetry. apply app_nil_r.
  - cbn [fold_left List.filter]. destruct (complete t) eqn:Hc.
    + destruct (complete_attrs t Hc) as (p & c & Hp & Hv & Hnp & Hnc).
      rewrite (record_tag_complete d t p c Hp Hv Hnp Hnc), IH, keys_set.
      cbn [properties]. rewrite Hp. cbn [first_occurrences List.filter].
      set (L := first_occurrences (properties (List.filter complete tags))).
      destruct (mem p (map fst d)) eqn:Hm; cbn [negb].
      * f_equal. rewrite filter_filter. apply List.filter_ext. intros y.
        destruct (String.eqb_spec p y) as [->|Hne]; cbn [negb andb]; [|reflexivity].
        rewrite Hm. reflexivity.
      * rewrite <- List.app_assoc. cbn [app]. do 2 f_equal.
        rewrite filter_filter. apply List.filter_ext. intros y.
        rewrite mem_app. unfold mem at 2. cbn [existsb].
        rewrite orb_false_r, negb_orb. apply andb_comm.
    + rewrite (record_tag_incomplete d t Hc). apply IH.
Qed.

(** X1: the entries of the result are in the order in which their property
    names first occur among the complete selected tags; a later tag for a
    name already seen changes the value, not the position. *)
Theorem parse_opengraph_meta_key_order (bs : Bs4.PageElement) :
  map fst (parse_opengraph_meta bs)
  = first_occurrences
      (properties
         (List.filter complete (Bs4.find_all "meta" "property" og_property bs))).
Proof.
  unfold parse_opengraph_meta. rewrite fold_record_tag_keys.
  cbn [PyDict.empty map app]. apply filter_all. reflexivity.
Qed.

(** X2: for every property name, the value stored is the content of the last
    complete Open Graph tag for that name, and the name is absent exactly
    when the document has no such tag. *)
Theorem parse_opengraph_meta_lookup (bs : Bs4.PageElement) (p : string) :
  PyDict.get p (parse_opengraph_meta bs) = last (og_contents p bs)
  /\ (PyDict.get p (parse_opengraph_meta bs) = None <-> og_contents p bs = []).
Proof.
  rewrite parse_opengraph_meta_get. split; [reflexivity|]. apply last_None.
Qed.

(** X3: the result is the empty mapping exactly when no selected tag has
    both attributes present and non-empty; in particular a document without
    Open Graph tags gives the empty mapping. *)
Theorem parse_opengraph_meta_empty (bs : Bs4.PageElement) :
  parse_opengraph_meta bs = PyDict.empty
  <-> List.filter complete (Bs4.find_all "meta" "property" og_property bs) = [].
Proof.
  assert (Hkeys : map fst (parse_opengraph_meta bs)
                  = first_occurrences
                      (properties
                         (List.filter complete
                            (Bs4.find_all "meta" "property" og_property bs)))).
  { unfold parse_opengraph_meta. rewrite fold_record_tag_keys.
    cbn [PyDict.empty map app]. apply filter_all. reflexivity. }
  split.
  - intros Hempty. rewrite Hempty in Hkeys. cbn in Hkeys.
    destruct (List.filter complete _) as [|t ts] eqn:Hf; [reflexivity|].
    assert (Hc : complete t = true).
    { assert (Hin : In t (List.filter complete
                            (Bs4.find_all "meta" "property" og_property bs)))
        by (rewrite Hf; left; reflexivity).
      apply List.filter_In in Hin as [_ Hin]. exact Hin. }
    destruct (complete_attrs t Hc) as (p & c & Hp & _).
    cbn [properties first_occurrences] in Hkeys. rewrite Hp in Hkeys.
    discriminate.
  - intros Hf. rewrite Hf in Hkeys. cbn in Hkeys.
    destruct (parse_opengraph_meta bs); [reflexivity | discriminate].
Qed.

End ExtractorOrder.

(** ** More on naming: colliding keys, absolute keys *)

Section NamingMore.

(** X4: for a key [k] that does not end in [.html], the keys [k] and
    [k.html] are different keys with the same file name, hence the same
    output path in every output directory. *)
Theorem output_path_colliding_keys (src : string) :
  PyStr.endswith src ".html" = false ->
  src +:+ ".html" <> src
  /\ output_name (src +:+ ".html") = output_name src
  /\ forall out_dir, output_path out_dir (src +:+ ".html") = output_path out_dir src.
Proof.
  intros E.
  assert (Hname : output_name (src +:+ ".html") = output_name src).
  { rewrite (output_name_cases src), E, output_name_cases.
    assert (Hends : PyStr.endswith (src +:+ ".html") ".html" = true)
      by (apply endswith_spec; exists src; reflexivity).
    rewrite Hends. reflexivity. }
  split; [|split; [exact Hname|]].
  - intros H. apply (f_equal String.length) in H.
    rewrite app_length in H. simpl in H. lia.
  - intros out_dir. unfold output_path. rewrite Hname. reflexivity.
Qed.

Lemma output_path_colliding_keys_witness :
  PyStr.endswith "about" ".html" = false
  /\ output_path "out" "about.html" = output_path "out" "about".
Proof.
  assert (H : PyStr.endswith "about" ".html" = false) by reflexivity.
  split; [exact H|].
  destruct (output_path_colliding_keys "about" H) as (_ & _ & Hpath).
  exact (Hpath "out").
Defined.

(** X5: a key that begins with [/] is an absolute path for [os.path.join]:
    the output directory plays no part, and the output path is the key
    itself, with [.html] appended when the key does not end in it. *)
Theorem output_path_absolute_key (out_dir src : string) :
  PyStr.startswith src "/" = true ->
  output_path out_dir src = output_name src
  /\ forall out_dir', output_path out_dir' src = output_path out_dir src.
Proof.
  intros H.
  assert (Hname : PyStr.startswith (output_name src) "/" = true).
  { apply startswith_spec in H as [t ->]. rewrite output_name_cases.
    destruct (PyStr.endswith _ _); [apply startswith_app|].
    rewrite app_assoc. apply startswith_app. }
  assert (Hpath : forall d, output_path d src = output_name src).
  { intros d. unfold output_path, join. rewrite Hname. reflexivity. }
  split; [apply Hpath|]. intros d. rewrite !Hpath. reflexivity.
Qed.

Lemma output_path_absolute_key_witness :
  PyStr.startswith "/srv/www/index" "/" = true
  /\ output_path "out" "/srv/www/index" = "/srv/www/index.html".
Proof.
  assert (H : PyStr.startswith "/srv/www/index" "/" = true) by reflexivity.
  split; [exact H|].
  destruct (output_path_absolute_key "out" "/srv/www/index" H) as [Hpath _].
  rewrite Hpath. reflexivity.
Defined.

End NamingMore.

(** ** Extractor and generator together *)

Section Pipeline.




End Pipeline.


(** ** More on the run: progress output, file errors, start-up failures *)

Section RunMore.

Context {Net FS : Type}.
Variable requests_get : Net -> string -> get_result * Net.
Variable html_parser : string -> Bs4.PageElement.
Variable load_yaml : FS -> string -> exn + list (string * string).
Variable makedirs : FS -> string -> option exn * FS.
Variable open_file : FS -> string -> option exn * FS.
Variable write_file : FS -> string -> string -> option exn * FS.
Variable close_file : FS -> string -> option exn * FS.

(** X7: whatever happens, the progress output grows by the lines of the
    first [k] pairs of the mapping, in the order of the mapping, for some
    [k] up to the number of pairs; a run that returns normally has printed
    the line of every pair.  (The converse fails: a line is printed before
    its file is closed.) *)
Theorem redirects_loop_progress
    (out_dir : string) (items : list (string * string)) (w : World Net FS) :
  let r := redirects_loop requests_get html_parser open_file write_file close_file
             out_dir items w in
  exists k,
    k <= List.length items
    /\ stdout (snd r) = stdout w ++ map (wrote_line out_dir) (firstn k items)
    /\ (fst r = Returned tt -> k = List.length items).
Proof.
  cbn zeta. revert w. induction items as [|[src dst] items IH]; intros w.
  - exists 0. cbn. rewrite app_nil_r. auto.
  - unfold redirects_loop. rewrite for_each_cons, redirect_one_cases.
    assert (Hnone : forall (ex : exn) (w' : World Net FS),
               stdout w' = stdout w ->
               exists k, k <= List.length ((src, dst) :: items)
                 /\ stdout w' = stdout w ++ map (wrote_line out_dir)
                                              (firstn k ((src, dst) :: items))
                 /\ (@Raised unit ex = Returned tt -> k = List.length ((src, dst) :: items))).
    { intros ex w' Hw'. exists 0. cbn. rewrite app_nil_r.
      split; [lia|]. split; [exact Hw' | discriminate]. }
    destruct (requests_get (net w) dst) as [[res|e|e] n];
      [|apply Hnone; reflexivity..].
    destruct (open_file _ _) as [[ex|] f]; [apply Hnone; reflexivity|].
    destruct (write_file _ _ _) as [[ex|] f1];
      destruct (close_file _ _) as [[ex'|] f2];
      try (apply Hnone; reflexivity).
    + exists 1. cbn. split; [lia|]. split; [reflexivity | discriminate].
    + destruct (IH (mkWorld n f2
                      (stdout w ++ ["Wrote " +:+ output_path out_dir src
                                    +:+ ": redirect to " +:+ dst])))
        as (k & Hk & Hout & Hret).
      exists (S k). unfold redirects_loop in Hout, Hret.
      split; [cbn; lia|]. split.
      * rewrite Hout. cbn [stdout firstn map]. rewrite <- List.app_assoc.
        reflexivity.
      * intros Hr. rewrite (Hret Hr). reflexivity.
Qed.

(** X8: if the output file of a pair cannot be opened, the run raises that
    error as it is; no line is printed for the pair, nothing is written or
    closed, and the later pairs are not fetched. *)
Theorem redirects_loop_open_failure
    (out_dir : string) (before after : list (string * string))
    (src dst : string) (res : Response) (ex : exn)
    (w w1 : World Net FS) (n : Net) (f : FS) :
  redirects_loop requests_get html_parser open_file write_file close_file
    out_dir before w
  = (Returned tt, w1) ->
  requests_get (net w1) dst = (Got res, n) ->
  open_file (fs w1) (output_path out_dir src) = (Some ex, f) ->
  redirects_loop requests_get html_parser open_file write_file close_file out_dir
    (before ++ (src, dst) :: after) w
  = (Raised ex, mkWorld n f (stdout w1)).
Proof.
  intros Hbefore Hfetch Hopen.
  unfold redirects_loop in *. rewrite for_each_app, Hbefore.
  rewrite for_each_cons, redirect_one_cases, Hfetch, Hopen. reflexivity.
Qed.

(** X12: if writing the page fails after the file was opened, the file is
    closed all the same, no line is printed for the pair and the run ends:
    it raises the error of the write, or the error of the close when
    closing fails as well. *)
Theorem redirects_loop_write_failure
    (out_dir : string) (before after : list (string * string))
    (src dst : string) (res : Response) (ex : exn) (closed : option exn)
    (w w1 : World Net FS) (n : Net) (f f1 f2 : FS) :
  redirects_loop requests_get html_parser open_file write_file close_file
    out_dir before w
  = (Returned tt, w1) ->
  requests_get (net w1) dst = (Got res, n) ->
  open_file (fs w1) (output_path out_dir src) = (None, f) ->
  write_file f (output_path out_dir src)
    (generate_redirect_html dst (parse_opengraph_meta (html_parser (text res))))
  = (Some ex, f1) ->
  close_file f1 (output_path out_dir src) = (closed, f2) ->
  redirects_loop requests_get html_parser open_file write_file close_file out_dir
    (before ++ (src, dst) :: after) w
  = (Raised (match closed with Some ex' => ex' | None => ex end),
     mkWorld n f2 (stdout w1)).
Proof.
  intros Hbefore Hfetch Hopen Hwrite Hclose.
  unfold redirects_loop in *. rewrite for_each_app, Hbefore.
  rewrite for_each_cons, redirect_one_cases, Hfetch, Hopen, Hwrite, Hclose.
  destruct closed; reflexivity.
Qed.


(** X14: only a [RequestException] is turned into [Error fetching ...]: any
    other exception raised by the fetch ends the run as it is, with the file
    system and the progress output left by the earlier pairs. *)
Theorem redirects_loop_fetch_other
    (out_dir : string) (before after : list (string * string))
    (src dst : string) (e : exn) (w w1 : World Net FS) (n : Net) :
  redirects_loop requests_get html_parser open_file write_file close_file
    out_dir before w
  = (Returned tt, w1) ->
  requests_get (net w1) dst = (OtherException e, n) ->
  redirects_loop requests_get html_parser open_file write_file close_file out_dir
    (before ++ (src, dst) :: after) w
  = (Raised e, mkWorld n (fs w1) (stdout w1)).
Proof.
  intros Hbefore Hfetch.
  unfold redirects_loop in *. rewrite for_each_app, Hbefore.
  rewrite for_each_cons, redirect_one_cases, Hfetch. reflexivity.
Qed.

(** X10: when the mapping file cannot be loaded, the run raises that error
    at once: no directory is created, nothing is fetched, nothing is
    printed. *)
Theorem redirects_config_error
    (out_dir : string) (w : World Net FS) (e : exn) :
  load_yaml (fs w) REDIRECTS_YML_PATH = inl e ->
  redirects requests_get html_parser load_yaml makedirs open_file write_file close_file
    out_dir w
  = (Raised e, w).
Proof.
  intros H. unfold redirects, bind, read_redirects. rewrite H. reflexivity.
Qed.

(** X11: when the output directory cannot be created, the run raises that
    error before the first fetch: the network is untouched and nothing is
    printed, whatever the mapping holds. *)
Theorem redirects_makedirs_error
    (out_dir : string) (items : list (string * string))
    (w : World Net FS) (e : exn) (f : FS) :
  load_yaml (fs w) REDIRECTS_YML_PATH = inr items ->
  makedirs (fs w) out_dir = (Some e, f) ->
  redirects requests_get html_parser load_yaml makedirs open_file write_file close_file
    out_dir w
  = (Raised e, mkWorld (net w) f (stdout w)).
Proof.
  intros Hload Hdirs. unfold redirects, bind, read_redirects, fs_op.
  rewrite Hload, Hdirs. reflexivity.
Qed.

End RunMore.

Section RunsMore.

Lemma redirects_loop_open_failure_witness :
  let requests_get := fun (n : nat) (url : string) =>
    (Got (mkResponse 200 "<html></html>"), S n) in
  let html_parser := fun _ : string => Bs4.Tag "[document]" ∅ [] in
  let open_file := fun (f : list (string * string)) (path : string) =>
    if directly_inside "out" path
    then (None : option exn, PyDict.set path "" f)
    else (Some (OSError "No such file or directory"), f) in
  let write_file := fun (f : list (string * string)) (path content : string) =>
    (None : option exn, PyDict.set path content f) in
  let close_file := fun (f : list (string * string)) (path : string) =>
    (None : option exn, f) in
  let before := [("home", "https://example.com")] in
  let after := [("docs", "https://example.com/docs")] in
  let w := mkWorld 0 [] [] in
  let w1 := snd (redirects_loop requests_get html_parser open_file write_file close_file
                   "out" before w) in
  let r := redirects_loop requests_get html_parser open_file write_file close_file "out"
             (before ++ ("blog/post", "https://example.com/blog") :: after) w in
  redirects_loop requests_get html_parser open_file write_file close_file "out" before w
  = (Returned tt, w1)
  /\ fst r = Raised (OSError "No such file or directory")
  /\ net (snd r) = 2
  /\ map fst (fs (snd r)) = ["out/home.html"]
  /\ stdout (snd r) = ["Wrote out/home.html: redirect to https://example.com"].
Proof.
  intros requests_get html_parser open_file write_file close_file before after w w1 r.
  assert (Hbefore : redirects_loop requests_get html_parser open_file write_file
                      close_file "out" before w
                    = (Returned tt, w1)) by reflexivity.
  split; [exact Hbefore|].
  subst r.
  rewrite (redirects_loop_open_failure requests_get html_parser
             open_file write_file close_file
             "out" before after "blog/post" "https://example.com/blog"
             (mkResponse 200 "<html></html>") (OSError "No such file or directory")
             w w1 2 (fs w1) Hbefore eq_refl eq_refl).
  repeat split; reflexivity.
Defined.

Lemma redirects_loop_write_failure_witness :
  let requests_get := fun (n : nat) (url : string) =>
    (Got (mkResponse 200 "<html></html>"), S n) in
  let html_parser := fun _ : string => Bs4.Tag "[document]" ∅ [] in
  let open_file := fun (f : list (string * string)) (path : string) =>
    (None : option exn, PyDict.set path "" f) in
  let write_file := fun (f : list (string * string)) (path content : string) =>
    (Some (OSError "No space left on device"), f) in
  let close_file := fun (f : list (string * string)) (path : string) =>
    (None : option exn, f) in
  let w := mkWorld 0 [] [] in
  let r := redirects_loop requests_get html_parser open_file write_file close_file "out"
             ([] ++ ("home", "https://example.com")
                 :: [("docs", "https://example.com/docs")]) w in
  fst r = Raised (OSError "No space left on device")
  /\ net (snd r) = 1
  /\ fs (snd r) = [("out/home.html", "")]
  /\ stdout (snd r) = [].
Proof.
  intros requests_get html_parser open_file write_file close_file w r.
  subst r.
  rewrite (redirects_loop_write_failure requests_get html_parser
             open_file write_file close_file
             "out" [] [("docs", "https://example.com/docs")]
             "home" "https://example.com"
             (mkResponse 200 "<html></html>") (OSError "No space left on device") None
             w w 1 [("out/home.html", "")] [("out/home.html", "")]
             [("out/home.html", "")]
             eq_refl eq_refl eq_refl eq_refl eq_refl).
  repeat split; reflexivity.
Defined.


Lemma redirects_loop_fetch_other_witness :
  let requests_get := fun (n : nat) (url : string) =>
    if String.eqb url "http://[::1"
    then (OtherException (Exception "LocationParseError" "Failed to parse: http://[::1"),
          S n)
    else (Got (mkResponse 200 "<html></html>"), S n) in
  let html_parser := fun _ : string => Bs4.Tag "[document]" ∅ [] in
  let open_file := fun (f : list (string * string)) (path : string) =>
    (None : option exn, PyDict.set path "" f) in
  let write_file := fun (f : list (string * string)) (path content : string) =>
    (None : option exn, PyDict.set path content f) in
  let close_file := fun (f : list (string * string)) (path : string) =>
    (None : option exn, f) in
  let before := [("home", "https://example.com")] in
  let w := mkWorld 0 [] [] in
  let w1 := snd (redirects_loop requests_get html_parser open_file write_file close_file
                   "out" before w) in
  let r := redirects_loop requests_get html_parser open_file write_file close_file "out"
             (before ++ ("bad", "http://[::1") :: []) w in
  redirects_loop requests_get html_parser open_file write_file close_file "out" before w
  = (Returned tt, w1)
  /\ fst r = Raised (Exception "LocationParseError" "Failed to parse: http://[::1")
  /\ map fst (fs (snd r)) = ["out/home.html"].
Proof.
  intros requests_get html_parser open_file write_file close_file before w w1 r.
  assert (Hbefore : redirects_loop requests_get html_parser open_file write_file
                      close_file "out" before w
                    = (Returned tt, w1)) by reflexivity.
  split; [exact Hbefore|].
  subst r.
  rewrite (redirects_loop_fetch_other requests_get html_parser
             open_file write_file close_file
             "out" before [] "bad" "http://[::1"
             (Exception "LocationParseError" "Failed to parse: http://[::1")
             w w1 2 Hbefore eq_refl).
  split; reflexivity.
Defined.

Lemma redirects_config_error_witness :
  let requests_get := fun (n : nat) (url : string) =>
    (Got (mkResponse 200 ""), S n) in
  let html_parser := fun _ : string => Bs4.Tag "[document]" ∅ [] in
  let load_yaml := fun (f : list (string * string)) (path : string) =>
    match PyDict.get path f with
    | None => inl (OSError "No such file or directory") : exn + list (string * string)
    | Some _ => inr []
    end in
  let makedirs := fun (f : list (string * string)) (_ : string) =>
    (None : option exn, f) in
  let open_file := fun (f : list (string * string)) (path : string) =>
    (None : option exn, PyDict.set path "" f) in
  let write_file := fun (f : list (string * string)) (path content : string) =>
    (None : option exn, PyDict.set path content f) in
  let close_file := fun (f : list (string * string)) (path : string) =>
    (None : option exn, f) in
  let w := mkWorld 0 [] [] in
  load_yaml (fs w) REDIRECTS_YML_PATH = inl (OSError "No such file or directory")
  /\ redirects requests_get html_parser load_yaml makedirs
       open_file write_file close_file "out" w
     = (Raised (OSError "No such file or directory"), w).
Proof.
  intros requests_get html_parser load_yaml makedirs open_file write_file close_file w.
  assert (H : load_yaml (fs w) REDIRECTS_YML_PATH
              = inl (OSError "No such file or directory")) by reflexivity.
  split; [exact H|].
  exact (redirects_config_error requests_get html_parser load_yaml makedirs
           open_file write_file close_file "out" w _ H).
Defined.

Lemma redirects_makedirs_error_witness :
  let requests_get := fun (n : nat) (url : string) =>
    (Got (mkResponse 200 ""), S n) in
  let html_parser := fun _ : string => Bs4.Tag "[document]" ∅ [] in
  let items := [("home", "https://example.com")] in
  let load_yaml := fun (f : list (string * string)) (path : string) =>
    inr items : exn + list (string * string) in
  let makedirs := fun (f : list (string * string)) (_ : string) =>
    (Some (OSError "Permission denied"), f) in
  let open_file := fun (f : list (string * string)) (path : string) =>
    (None : option exn, PyDict.set path "" f) in
  let write_file := fun (f : list (string * string)) (path content : string) =>
    (None : option exn, PyDict.set path content f) in
  let close_file := fun (f : list (string * string)) (path : string) =>
    (None : option exn, f) in
  let w := mkWorld 0 [] [] in
  load_yaml (fs w) REDIRECTS_YML_PATH = inr items
  /\ makedirs (fs w) "/srv/out" = (Some (OSError "Permission denied"), [])
  /\ redirects requests_get html_parser load_yaml makedirs
       open_file write_file close_file "/srv/out" w
     = (Raised (OSError "Permission denied"), mkWorld 0 [] []).
Proof.
  intros requests_get html_parser items load_yaml makedirs
    open_file write_file close_file w.
  split; [reflexivity|]. split; [reflexivity|].
  exact (redirects_makedirs_error requests_get html_parser load_yaml makedirs
           open_file write_file close_file "/srv/out" items w _ _ eq_refl eq_refl).
Defined.

End RunsMore.
